(** * Docker component adapter of odo: reconciliation, port mapping and the
    devfile command pipeline

    Shallow embedding of [pkg/devfile/adapters/docker/component/utils.go].

    Go values are modelled as follows.
    - An [error] interface value is an [option error]: [None] is [nil].
    - A function with several results returns a tuple; a result map that may
      be [nil] is an [option] of a [gmap].
    - Calls to the container engine, the storage adapter, the working
      directory, the environment file and the in-container exec helpers go
      through a record of collaborators over an abstract world [W]; every
      such call is appended to a trace of [Event]s, so that "which calls were
      issued, in which order" is a property of the embedded code and not of a
      particular engine. *)

From Stdlib Require Import ZArith String List DecimalString DecimalPos DecimalZ.
From stdpp Require Import base option list gmap strings.

Local Open Scope string_scope.
Local Open Scope list_scope.
Local Open Scope Z_scope.

(** ** Errors *)

(** A non-nil Go error value. *)
Inductive error : Type :=
| errorString (msg : string)
| withMessage (cause : error) (msg : string).

Module fmt.
  (** [fmt.Errorf] and [errors.New]: always a non-nil error. *)
Definition Errorf (msg : string) : option error := Some (errorString msg).
End fmt.

Module errors.
Definition New (msg : string) : option error := Some (errorString msg).

  (** [github.com/pkg/errors.Wrapf]: annotates [err] with a message; its
      documentation states "If err is nil, Wrapf returns nil". *)
Definition Wrapf (err : option error) (msg : string) : option error :=
    match err with
    | None => None
    | Some e => Some (withMessage e msg)
    end.
End errors.

(** [strconv.Itoa]. *)
Definition Itoa (z : Z) : string := NilZero.string_of_int (Z.to_int z).

(** ** Data model *)

Module Env.
Record t := mk { Name : string; Value : string }.
End Env.

Module Endpoint.
Record t := mk { Name : string; TargetPort : Z }.
End Endpoint.

(** [versionsCommon.Container], the container of a devfile component. *)
Module Container.
Record t := mk {
    Name : string;
    Image : string;
    Command : list string;
    Args : list string;
    Env : list Env.t;
    Endpoints : list Endpoint.t;
    MountSources : bool
  }.
End Container.

Module DevfileComponent.
Record t := mk { Container : Container.t }.
End DevfileComponent.

(** [common.DevfileVolume]. *)
Module DevfileVolume.
Record t := mk { Name : string; ContainerPath : string }.
End DevfileVolume.

(** [common.Storage], an entry of [a.uniqueStorage]. *)
Module Storage.
Record t := mk { Name : string; Volume : DevfileVolume.t }.
End Storage.

(** [versionsCommon.Exec]: the action of a devfile command. [Restart] carries
    the restart-required flag of a Run command. *)
Module Exec.
Record t := mk {
    Id : string;
    Component : string;
    CommandLine : string;
    Restart : bool
  }.
End Exec.

Module DevfileCommand.
Record t := mk { Exec : Exec.t }.
End DevfileCommand.

Inductive DevfileCommandGroupType :=
| BuildCommandGroupType
| RunCommandGroupType
| TestCommandGroupType
| DebugCommandGroupType
| InitCommandGroupType.

Global Instance DevfileCommandGroupType_eq_dec : EqDecision DevfileCommandGroupType.
Proof. solve_decision. Defined.

Global Instance DevfileCommandGroupType_countable : Countable DevfileCommandGroupType.
Proof.
  refine (inj_countable'
    (λ g, match g with
          | BuildCommandGroupType => 0%nat
          | RunCommandGroupType => 1%nat
          | TestCommandGroupType => 2%nat
          | DebugCommandGroupType => 3%nat
          | InitCommandGroupType => 4%nat
          end)
    (λ n, match n with
          | 0%nat => BuildCommandGroupType
          | 1%nat => RunCommandGroupType
          | 2%nat => TestCommandGroupType
          | 3%nat => DebugCommandGroupType
          | _ => InitCommandGroupType
          end) _).
  intros []; reflexivity.
Defined.

(** [common.PushCommandsMap]. *)
Abbreviation PushCommandsMap := (gmap DevfileCommandGroupType DevfileCommand.t).

(** [envinfo.EnvInfoURL]: a persisted exposed URL. *)
Module EnvInfoURL.
Record t := mk { Name : string; Port : Z; ExposedPort : Z }.
End EnvInfoURL.

(** ** Engine types *)

(** [nat.Port] is a string of the form ["8080/tcp"]. The only constructor call
    in this file is [nat.NewPort("tcp", ...)], so a port is represented by its
    number. *)
Abbreviation Port := Z.

Module PortBinding.
Record t := mk { HostIP : string; HostPort : string }.
End PortBinding.

Abbreviation PortMap := (gmap Z (list PortBinding.t)).
Abbreviation NamePortMapping := (gmap Z string).

Module dockernat.
  (** [nat.NewPort(proto, strconv.Itoa(port))] of docker/go-connections: the
      port string is parsed as an unsigned 16-bit decimal number and the call
      fails otherwise. *)
Definition NewPort (proto : string) (port : Z) : Z * option error :=
    if (0 <=? port) && (port <=? 65535) then (port, None)
    else (0, fmt.Errorf ("invalid port " +:+ Itoa port)).

  (** [Port.Port()]: the port number as a string. *)
Definition Port_Port (p : Z) : string := Itoa p.
End dockernat.

Module Mount.
Record t := mk { Typ : string; Source : string; Target : string }.
End Mount.

Module MountPoint.
Record t := mk { Name : string; Destination : string }.
End MountPoint.

Module Volume.
Record t := mk { Name : string; Labels : gmap string string }.
End Volume.

(** [types.Container]: a live container as listed by the engine. *)
Module LiveContainer.
Record t := mk {
    ID : string;
    Labels : gmap string string;
    Command : string
  }.
End LiveContainer.

(** [container.Config]. *)
Module Config.
Record t := mk {
    Image : string;
    Entrypoint : list string;
    Cmd : list string;
    Env : list string;
    Labels : gmap string string;
    ExposedPorts : list Z
  }.
Definition setLabels (c : t) (l : gmap string string) : t :=
    mk (Image c) (Entrypoint c) (Cmd c) (Env c) l (ExposedPorts c).
End Config.

(** [container.HostConfig]. *)
Module HostConfig.
Record t := mk {
    Privileged : bool;
    PublishAllPorts : bool;
    PortBindings : gmap Z (list PortBinding.t);
    Mounts : list Mount.t
  }.
  (** The zero value [container.HostConfig{}]. *)
Definition zero : t := mk false false ∅ [].
Definition setMounts (h : t) (m : list Mount.t) : t :=
    mk (Privileged h) (PublishAllPorts h) (PortBindings h) m.
End HostConfig.

(** [common.ComponentInfo]. *)
Module ComponentInfo.
Record t := mk { ContainerName : string }.
End ComponentInfo.

(** ** Constants *)

Definition LocalhostIP : string := "127.0.0.1".
Definition projectSourceVolumeName : string := "odo-project-source".

(** [mount.TypeVolume]. *)
Definition TypeVolume : string := "volume".

(** The devfile data held by the adapter ([a.Devfile.Data]). *)
Module DevfileData.
Record t := mk {
  Components : list DevfileComponent.t;
  Commands : list DevfileCommand.t
}.
End DevfileData.

(** The receiver of every method of the file. *)
Module Adapter.
Record t := mk {
  ComponentName : string;
  Context : string;
  Devfile : DevfileData.t;
  uniqueStorage : list Storage.t;
  componentAliasToVolumes : gmap string (list DevfileVolume.t);
  volumeNameToDockerVolName : gmap string string;
  devfileRunCmd : string;
  supervisordVolumeName : string
}.
End Adapter.

(** ** Trace of collaborator calls

    One event per call issued to the engine client, the storage adapter or
    the exec helpers. The container listing also records what the engine
    answered, since the reconciler branches on the number of matches. *)
Inductive Event : Type :=
| EGetVolumesByLabel (labels : gmap string string)
| ECreateVolume (name : string) (labels : gmap string string)
| EStorageCreate (storages : list Storage.t)
| EGetContainersByComponentAndAlias (component alias : string)
    (found : list LiveContainer.t) (err : option error)
| EGetContainerConfigHostConfigAndMounts (containerID : string)
| ERemoveContainer (containerID : string)
| EPullImage (image : string)
| EStartContainer (config : Config.t) (hostConfig : HostConfig.t)
| EExecuteDevfileBuildAction (exec : Exec.t) (containerName : string)
| EExecuteDevfileRunAction (exec : Exec.t) (containerName : string)
| EExecuteDevfileRunActionWithoutRestart (exec : Exec.t) (containerName : string)
| EExecuteCommand (containerName : string) (command : list string).

(** ** Collaborators

    The packages [lclient], [storage], [envinfo], [os] and [exec] are consumed
    as capabilities. A call that talks to the engine or runs a command takes
    the world and returns its answer with the next world; reading the working
    directory or the environment file only inspects the world. *)
Class Collaborators (W : Type) : Type := {
  (* lclient.Client *)
  GetVolumesByLabel : gmap string string → W → (list Volume.t * option error) * W;
  CreateVolume : string → gmap string string → W → (Volume.t * option error) * W;
  GetContainersByComponentAndAlias :
    string → string → W → (list LiveContainer.t * option error) * W;
  GetContainerConfigHostConfigAndMounts :
    string → W → (Config.t * HostConfig.t * list MountPoint.t * option error) * W;
  RemoveContainer : string → W → option error * W;
  PullImage : string → W → option error * W;
  StartContainer : Config.t → HostConfig.t → W → option error * W;
  (* storage *)
  GenerateVolName : string → string → W → (string * option error) * W;
  StorageCreate : list Storage.t → W → option error * W;
  (* os, envinfo *)
  Getwd : W → string * option error;
  NewEnvSpecificInfo : string → W → list EnvInfoURL.t * option error;
  (* exec *)
  ExecuteDevfileBuildAction :
    Exec.t → string → ComponentInfo.t → bool → W → option error * W;
  ExecuteDevfileRunAction :
    Exec.t → string → ComponentInfo.t → bool → W → option error * W;
  ExecuteDevfileRunActionWithoutRestart :
    Exec.t → string → ComponentInfo.t → bool → W → option error * W;
  ExecuteCommand : ComponentInfo.t → list string → bool → W → option error * W
}.

(** Pure helpers of the packages [utils], [common] and [lclient] whose bodies
    are outside this file. *)
Class Helpers : Type := {
  GetProjectVolumeLabels : string → gmap string string;
  GetContainerLabels : string → string → gmap string string;
  GetSupportedComponents : DevfileData.t → list DevfileComponent.t;
  GetRunCommand : DevfileData.t → string → DevfileCommand.t * option error;
  UpdateComponentWithSupervisord :
    DevfileComponent.t → DevfileCommand.t → string → HostConfig.t →
    DevfileComponent.t * HostConfig.t;
  DoesContainerNeedUpdating :
    DevfileComponent.t → Config.t → HostConfig.t → list Mount.t →
    list MountPoint.t → gmap Z (list PortBinding.t) → bool;
  ConvertEnvs : list Env.t → list string;
  ConvertPorts : list Endpoint.t → list Z;
  GenerateContainerConfig :
    string → list string → list string → list string → gmap string string →
    list Z → Config.t;
  GenerateHostConfig : bool → bool → gmap Z (list PortBinding.t) → HostConfig.t;
  GetContainerIDForAlias : list LiveContainer.t → string → string;
  SupervisordBinaryPath : string;
  SupervisordConfFile : string;
  EnvCheProjectsRoot : string;
  OdoSourceVolumeMount : string
}.

(** Modelled from the spec: [common.IsPortPresent] is not in this file; the
    spec says an exposed URL is bound when "its container port matches a
    declared Endpoint". *)
Definition IsPortPresent (endpoints : list Endpoint.t) (port : Z) : bool :=
  existsb (λ endpoint, Endpoint.TargetPort endpoint =? port) endpoints.

(** Modelled from the spec: [common.IsEnvPresent] is not in this file; the
    spec says the injected variable is "added only if not already declared by
    the user". *)
Definition IsEnvPresent (envs : list Env.t) (name : string) : bool :=
  existsb (λ env, String.eqb (Env.Name env) name) envs.

(** Modelled from the spec: [common.IsRestartRequired] is not in this file;
    the spec gives each Run command "a restart-required flag". *)
Definition IsRestartRequired (command : DevfileCommand.t) : bool :=
  Exec.Restart (DevfileCommand.Exec command).

(** Modelled from the spec: [utils.AddVolumeToContainer] is not in this file;
    the spec says the mount list is the declared mounts "plus, conditionally,
    the project-source mount". *)
Definition AddVolumeToContainer (volumeName volumeMount : string)
    (hostConfig : HostConfig.t) : HostConfig.t :=
  HostConfig.setMounts hostConfig
    (HostConfig.Mounts hostConfig ++ [Mount.mk TypeVolume volumeName volumeMount]).

(** [strings.Contains]. *)
Fixpoint Contains (s substr : string) : bool :=
  String.prefix substr s ||
  match s with
  | EmptyString => false
  | String _ s' => Contains s' substr
  end.

(** ** The call monad: world passing with a trace *)

Section Monad.
Context {W : Type}.

Definition M (A : Type) : Type := W → A * W * list Event.

Definition ret {A} (a : A) : M A := λ w, (a, w, []).

Definition bind {A B} (m : M A) (k : A → M B) : M B :=
  λ w, let '(a, w1, t1) := m w in
       let '(b, w2, t2) := k a w1 in
       (b, w2, t1 ++ t2).

(** A collaborator call that is recorded in the trace. *)
Definition call {A} (f : W → A * W) (ev : A → Event) : M A :=
  λ w, let '(a, w1) := f w in (a, w1, [ev a]).

(** A helper that consumes state (the random suffix of a volume name) but is
    not a call to the engine: no event. *)
Definition silent {A} (f : W → A * W) : M A :=
  λ w, let '(a, w1) := f w in (a, w1, []).

(** A read of the local environment: no event, no change of the world. *)
Definition peek {A} (f : W → A) : M A := λ w, (f w, w, []).

End Monad.

Notation "'let*' p ':=' c 'in' k" := (bind c (λ p, k))
  (at level 10, p pattern, c at level 100, k at level 200).

(** A Go map that may be [nil]: reads and [range] see an empty map. *)
Definition orEmpty `{Countable K} {V} (m : option (gmap K V)) : gmap K V :=
  default ∅ m.

(** ** The source functions *)

Section Component.
Context {W : Type} {collab : Collaborators W} {helpers : Helpers}.

(** *** getPortMap *)

(** The loop of [getPortMap] over [urlArr]; [portmap] and [namePortMapping]
    are the two maps it fills. A failing iteration returns [nil, nil, err]. *)
Fixpoint getPortMap_loop (endpoints : list Endpoint.t) (urlArr : list EnvInfoURL.t)
    (portmap : gmap Z (list PortBinding.t)) (namePortMapping : gmap Z string)
    : option (gmap Z (list PortBinding.t)) * option (gmap Z string) * option error :=
  match urlArr with
  | [] => (Some portmap, Some namePortMapping, None)
  | url :: rest =>
      if (0 <? EnvInfoURL.ExposedPort url) && IsPortPresent endpoints (EnvInfoURL.Port url)
      then
        let '(port, err) := dockernat.NewPort "tcp" (EnvInfoURL.Port url) in
        match err with
        | Some _ => (None, None, err)
        | None =>
            getPortMap_loop endpoints rest
              (<[port := [PortBinding.mk LocalhostIP (Itoa (EnvInfoURL.ExposedPort url))]]> portmap)
              (<[port := EnvInfoURL.Name url]> namePortMapping)
        end
      else if (0 <? EnvInfoURL.ExposedPort url) && (0 <? length endpoints)%nat
              && negb (IsPortPresent endpoints (EnvInfoURL.Port url))
      then (None, None,
            fmt.Errorf "Error creating url: odo url config's port is not present in the devfile. Please re-create odo url with the new devfile port")
      else getPortMap_loop endpoints rest portmap namePortMapping
  end.

Definition getPortMap (context : string) (endpoints : list Endpoint.t) (show : bool)
    : M (option (gmap Z (list PortBinding.t)) * option (gmap Z string) * option error) :=
  let* (dir, err) :=
    (if decide (context = "") then peek Getwd else ret (context, None)) in
  match err with
  | Some _ => ret (None, None, err)
  | None =>
      let* (urlArr, err) := peek (NewEnvSpecificInfo dir) in
      match err with
      | Some _ => ret (None, None, err)
      | None => ret (getPortMap_loop endpoints urlArr ∅ ∅)
      end
  end.

(** *** generateAndGetHostConfig, generateAndGetContainerConfig *)

Definition generateAndGetHostConfig (a : Adapter.t) (endpoints : list Endpoint.t)
    : M (HostConfig.t * gmap Z string * option error) :=
  let* (pn, err) := getPortMap (Adapter.Context a) endpoints true in
  let '(portMap, namePortMapping) := pn in
  match err with
  | Some _ => ret (HostConfig.zero, ∅, err)
  | None =>
      let hostConfig :=
        if (0 <? size (orEmpty portMap))%nat
        then GenerateHostConfig false false (orEmpty portMap)
        else HostConfig.zero in
      ret (hostConfig, orEmpty namePortMapping, None)
  end.

Definition generateAndGetContainerConfig (componentName : string)
    (comp : DevfileComponent.t) : Config.t :=
  let c := DevfileComponent.Container comp in
  let envVars := ConvertEnvs (Container.Env c) in
  let ports := ConvertPorts (Container.Endpoints c) in
  let containerLabels := GetContainerLabels componentName (Container.Name c) in
  GenerateContainerConfig (Container.Image c) (Container.Command c) (Container.Args c)
    envVars containerLabels ports.

(** [for port, urlName := range namePortMapping { cfg.Labels[port.Port()] = urlName }].
    The keys written are pairwise distinct, so the order of the range does
    not matter. *)
Definition labelPorts (namePortMapping : gmap Z string) (cfg : Config.t) : Config.t :=
  Config.setLabels cfg
    (map_fold (λ port urlName labels, <[dockernat.Port_Port port := urlName]> labels)
       (Config.Labels cfg) namePortMapping).

(** [comp.Container.Env = append(comp.Container.Env, env)]. *)
Definition appendEnv (comp : DevfileComponent.t) (env : Env.t) : DevfileComponent.t :=
  let c := DevfileComponent.Container comp in
  DevfileComponent.mk
    (Container.mk (Container.Name c) (Container.Image c) (Container.Command c)
       (Container.Args c) (Container.Env c ++ [env]) (Container.Endpoints c)
       (Container.MountSources c)).

(** *** startComponent *)

Definition startComponent (a : Adapter.t) (mounts : list Mount.t)
    (projectVolumeName : string) (comp : DevfileComponent.t) : M (option error) :=
  let* (hn, err) :=
    generateAndGetHostConfig a (Container.Endpoints (DevfileComponent.Container comp)) in
  let '(hostConfig, namePortMapping) := hn in
  let hostConfig := HostConfig.setMounts hostConfig mounts in
  match err with
  | Some _ => ret err
  | None =>
      let '(runCommand, err) := GetRunCommand (Adapter.Devfile a) (Adapter.devfileRunCmd a) in
      match err with
      | Some _ => ret err
      | None =>
          let '(comp, hostConfig) :=
            UpdateComponentWithSupervisord comp runCommand
              (Adapter.supervisordVolumeName a) hostConfig in
          let '(comp, hostConfig) :=
            if Container.MountSources (DevfileComponent.Container comp) then
              let hostConfig :=
                AddVolumeToContainer projectVolumeName OdoSourceVolumeMount hostConfig in
              if negb (IsEnvPresent (Container.Env (DevfileComponent.Container comp))
                         EnvCheProjectsRoot)
              then (appendEnv comp (Env.mk EnvCheProjectsRoot OdoSourceVolumeMount), hostConfig)
              else (comp, hostConfig)
            else (comp, hostConfig) in
          let containerConfig :=
            labelPorts namePortMapping
              (generateAndGetContainerConfig (Adapter.ComponentName a) comp) in
          call (StartContainer containerConfig hostConfig)
               (λ _, EStartContainer containerConfig hostConfig)
      end
  end.

(** *** pullAndStartContainer *)

Definition pullAndStartContainer (a : Adapter.t) (mounts : list Mount.t)
    (projectVolumeName : string) (comp : DevfileComponent.t) : M (option error) :=
  let image := Container.Image (DevfileComponent.Container comp) in
  let* err := call (PullImage image) (λ _, EPullImage image) in
  match err with
  | Some _ => ret (errors.Wrapf err ("Unable to pull " +:+ image +:+ " image"))
  | None =>
      let* err := startComponent a mounts projectVolumeName comp in
      match err with
      | Some _ =>
          ret (errors.Wrapf err
                 ("Unable to start container for devfile component " +:+
                  Container.Name (DevfileComponent.Container comp)))
      | None => ret None
      end
  end.

(** The inner loop building [dockerVolumeMounts] for one component. *)
Definition dockerVolumeMountsOf (a : Adapter.t) (comp : DevfileComponent.t) : list Mount.t :=
  map (λ vol,
         Mount.mk TypeVolume
           (default "" (Adapter.volumeNameToDockerVolName a !! DevfileVolume.Name vol))
           (DevfileVolume.ContainerPath vol))
      (default [] (Adapter.componentAliasToVolumes a
                     !! Container.Name (DevfileComponent.Container comp))).

(** *** createComponent *)

(** Lines 37-58: get or create the project source volume. [inl err] is an
    early [return err] of [createComponent]; [inr name] continues with
    [projectVolumeName = name]. *)
Definition createComponent_projectVolume (a : Adapter.t) : M (option error + string) :=
  let componentName := Adapter.ComponentName a in
  let projectVolumeLabels := GetProjectVolumeLabels componentName in
  let* (projectVols, err) :=
    call (GetVolumesByLabel projectVolumeLabels)
         (λ _, EGetVolumesByLabel projectVolumeLabels) in
  match err with
  | Some _ =>
      ret (inl (errors.Wrapf err
                  ("Unable to retrieve source volume for component " +:+ componentName)))
  | None =>
      match projectVols with
      | [] =>
          let* (projectVolumeName, err) :=
            silent (GenerateVolName projectSourceVolumeName (Adapter.ComponentName a)) in
          match err with
          | Some _ =>
              ret (inl (errors.Wrapf err
                          ("Unable to generate project source volume name for component "
                           +:+ componentName)))
          | None =>
              let* (_, err) :=
                call (CreateVolume projectVolumeName projectVolumeLabels)
                     (λ _, ECreateVolume projectVolumeName projectVolumeLabels) in
              match err with
              | Some _ =>
                  ret (inl (errors.Wrapf err
                              ("Unable to create project source volume for component "
                               +:+ componentName)))
              | None => ret (inr projectVolumeName)
              end
          end
      | [vol] => ret (inr (Volume.Name vol))
      | _ =>
          ret (inl (errors.Wrapf err
                      ("Error, multiple source volumes found for component "
                       +:+ componentName)))
      end
  end.

(** Lines 72-88: pull and start one container per supported component. *)
Fixpoint createComponent_loop (a : Adapter.t) (projectVolumeName : string)
    (supportedComponents : list DevfileComponent.t) : M (option error) :=
  match supportedComponents with
  | [] => ret None
  | comp :: rest =>
      let dockerVolumeMounts := dockerVolumeMountsOf a comp in
      let* err := pullAndStartContainer a dockerVolumeMounts projectVolumeName comp in
      match err with
      | Some _ =>
          ret (errors.Wrapf err
                 ("unable to pull and start container " +:+
                  Container.Name (DevfileComponent.Container comp) +:+
                  " for component " +:+ Adapter.ComponentName a))
      | None => createComponent_loop a projectVolumeName rest
      end
  end.

Definition createComponent (a : Adapter.t) : M (option error) :=
  let componentName := Adapter.ComponentName a in
  let* r := createComponent_projectVolume a in
  match r with
  | inl err => ret err
  | inr projectVolumeName =>
      let supportedComponents := GetSupportedComponents (Adapter.Devfile a) in
      if (length supportedComponents =? 0)%nat
      then ret (fmt.Errorf "No valid components found in the devfile")
      else
        let* err :=
          call (StorageCreate (Adapter.uniqueStorage a))
               (λ _, EStorageCreate (Adapter.uniqueStorage a)) in
        match err with
        | Some _ =>
            ret (errors.Wrapf err
                   ("Unable to create Docker storage adapter for component "
                    +:+ componentName))
        | None => createComponent_loop a projectVolumeName supportedComponents
        end
  end.

(** *** updateComponent *)

(** Lines 99-110: find the project source volume. [inl (b, err)] is an early
    [return b, err] of [updateComponent]; [inr name] continues. *)
Definition updateComponent_projectVolume (a : Adapter.t) (componentExists : bool)
    : M (bool * option error + string) :=
  let componentName := Adapter.ComponentName a in
  let volumeLabels := GetProjectVolumeLabels componentName in
  let* (projectVols, err) :=
    call (GetVolumesByLabel volumeLabels) (λ _, EGetVolumesByLabel volumeLabels) in
  match err with
  | Some _ =>
      ret (inl (componentExists,
                errors.Wrapf err
                  ("Unable to retrieve source volume for component " +:+ componentName)))
  | None =>
      match projectVols with
      | [] =>
          ret (inl (componentExists,
                    fmt.Errorf ("Unable to find source volume for component "
                                +:+ componentName)))
      | [vol] => ret (inr (Volume.Name vol))
      | _ =>
          ret (inl (componentExists,
                    errors.Wrapf err
                      ("Error, multiple source volumes found for component "
                       +:+ componentName)))
      end
  end.

(** What one iteration of the loop of [updateComponent] does to the control
    flow: fall through to the next component with the current value of
    [componentExists], or return from the function. *)
Inductive LoopStep : Type :=
| Continue (componentExists : bool)
| Return (componentExists : bool) (err : option error).

(** Lines 122-196: the body of the loop, for one component. The [err] of the
    body is declared by [:=] inside the loop and shadows the result
    parameter. *)
Definition updateComponent_body (a : Adapter.t) (projectVolumeName : string)
    (componentExists : bool) (comp : DevfileComponent.t) : M LoopStep :=
  let componentName := Adapter.ComponentName a in
  let alias := Container.Name (DevfileComponent.Container comp) in
  let* (containers, err) :=
    call (GetContainersByComponentAndAlias componentName alias)
         (λ r, EGetContainersByComponentAndAlias componentName alias r.1 r.2) in
  match err with
  | Some _ =>
      ret (Return false
             (errors.Wrapf err
                ("unable to list containers for component " +:+ componentName)))
  | None =>
      let dockerVolumeMounts := dockerVolumeMountsOf a comp in
      match containers with
      | [] =>
          let* err := pullAndStartContainer a dockerVolumeMounts projectVolumeName comp in
          match err with
          | Some _ =>
              ret (Return false
                     (errors.Wrapf err
                        ("unable to pull and start container " +:+ alias +:+
                         " for component " +:+ componentName)))
          | None => ret (Continue false)
          end
      | [container] =>
          let containerID := LiveContainer.ID container in
          let* (chm, err) :=
            call (GetContainerConfigHostConfigAndMounts containerID)
                 (λ _, EGetContainerConfigHostConfigAndMounts containerID) in
          let '(containerConfig, hostConfig, mounts) := chm in
          match err with
          | Some _ =>
              ret (Return componentExists
                     (errors.Wrapf err
                        ("unable to get the container config for component "
                         +:+ componentName)))
          | None =>
              let* (pn, err) :=
                getPortMap (Adapter.Context a)
                  (Container.Endpoints (DevfileComponent.Container comp)) false in
              let '(portMap, namePortMapping) := pn in
              match err with
              | Some _ =>
                  ret (Return componentExists
                         (errors.Wrapf err
                            ("unable to get the port map from env.yaml file for component "
                             +:+ componentName)))
              | None =>
                  let containerConfig :=
                    labelPorts (orEmpty namePortMapping) containerConfig in
                  if DoesContainerNeedUpdating comp containerConfig hostConfig
                       dockerVolumeMounts mounts (orEmpty portMap)
                  then
                    let* err :=
                      call (RemoveContainer containerID)
                           (λ _, ERemoveContainer containerID) in
                    match err with
                    | Some _ =>
                        ret (Return componentExists
                               (errors.Wrapf err
                                  ("Unable to remove container " +:+ containerID +:+
                                   " for component " +:+ alias)))
                    | None =>
                        let* err :=
                          startComponent a dockerVolumeMounts projectVolumeName comp in
                        match err with
                        | Some _ =>
                            ret (Return false
                                   (errors.Wrapf err
                                      ("Unable to start container for devfile component "
                                       +:+ alias)))
                        | None => ret (Continue false)
                        end
                    end
                  else ret (Continue componentExists)
              end
          end
      | _ =>
          ret (Return true
                 (fmt.Errorf
                    ("Found multiple running containers for devfile component " +:+
                     alias +:+ " and cannot push changes")))
      end
  end.

(** Lines 121-197: the loop over [supportedComponents]. *)
Fixpoint updateComponent_loop (a : Adapter.t) (projectVolumeName : string)
    (supportedComponents : list DevfileComponent.t) (componentExists : bool)
    : M LoopStep :=
  match supportedComponents with
  | [] => ret (Continue componentExists)
  | comp :: rest =>
      let* step := updateComponent_body a projectVolumeName componentExists comp in
      match step with
      | Continue componentExists =>
          updateComponent_loop a projectVolumeName rest componentExists
      | Return _ _ => ret step
      end
  end.

(** [updateComponent]. The result parameter [err] last receives the result of
    [stoAdapter.Create] (line 114), which is not tested; the bare [return] of
    line 199 returns it. *)
Definition updateComponent (a : Adapter.t) : M (bool * option error) :=
  let componentExists := true in
  let* r := updateComponent_projectVolume a componentExists in
  match r with
  | inl res => ret res
  | inr projectVolumeName =>
      let* err :=
        call (StorageCreate (Adapter.uniqueStorage a))
             (λ _, EStorageCreate (Adapter.uniqueStorage a)) in
      let supportedComponents := GetSupportedComponents (Adapter.Devfile a) in
      if (length supportedComponents =? 0)%nat
      then ret (componentExists, fmt.Errorf "No valid components found in the devfile")
      else
        let* step :=
          updateComponent_loop a projectVolumeName supportedComponents componentExists in
        match step with
        | Return componentExists e => ret (componentExists, e)
        | Continue componentExists => ret (componentExists, err)
        end
  end.

(** *** InitRunContainerSupervisord *)

(** The loop of [InitRunContainerSupervisord]; [err] is the result parameter,
    overwritten by every [exec.ExecuteCommand]. *)
Fixpoint InitRunContainerSupervisord_loop (component : string)
    (containers : list LiveContainer.t) (err : option error) : M (option error) :=
  match containers with
  | [] => ret err
  | container :: rest =>
      if bool_decide (default "" (LiveContainer.Labels container !! "alias") = component)
         && negb (Contains (LiveContainer.Command container) SupervisordBinaryPath)
      then
        let command := [SupervisordBinaryPath; "-c"; SupervisordConfFile; "-d"] in
        let compInfo := ComponentInfo.mk (LiveContainer.ID container) in
        let* err :=
          call (ExecuteCommand compInfo command true)
               (λ _, EExecuteCommand (LiveContainer.ID container) command) in
        InitRunContainerSupervisord_loop component rest err
      else InitRunContainerSupervisord_loop component rest err
  end.

Definition InitRunContainerSupervisord (a : Adapter.t) (component : string)
    (containers : list LiveContainer.t) : M (option error) :=
  InitRunContainerSupervisord_loop component containers None.

(** *** execDevfile *)

Definition execDevfile (a : Adapter.t)
    (commandsMap : gmap DevfileCommandGroupType DevfileCommand.t)
    (componentExists show : bool) (containers : list LiveContainer.t)
    : M (option error) :=
  if (size commandsMap =? 0)%nat
  then ret (errors.New "error executing devfile commands - there should be at least 1 command")
  else
    let* err :=
      (if negb componentExists then
         match commandsMap !! InitCommandGroupType with
         | Some command =>
             let exec := DevfileCommand.Exec command in
             let containerID := GetContainerIDForAlias containers (Exec.Component exec) in
             let compInfo := ComponentInfo.mk containerID in
             call (ExecuteDevfileBuildAction exec (Exec.Id exec) compInfo show)
                  (λ _, EExecuteDevfileBuildAction exec containerID)
         | None => ret None
         end
       else ret None) in
    match err with
    | Some _ => ret err
    | None =>
        let* err :=
          match commandsMap !! BuildCommandGroupType with
          | Some command =>
              let exec := DevfileCommand.Exec command in
              let containerID := GetContainerIDForAlias containers (Exec.Component exec) in
              let compInfo := ComponentInfo.mk containerID in
              call (ExecuteDevfileBuildAction exec (Exec.Id exec) compInfo show)
                   (λ _, EExecuteDevfileBuildAction exec containerID)
          | None => ret None
          end in
        match err with
        | Some _ => ret err
        | None =>
            match commandsMap !! RunCommandGroupType with
            | Some command =>
                let exec := DevfileCommand.Exec command in
                let* err :=
                  (if negb componentExists
                   then InitRunContainerSupervisord a (Exec.Component exec) containers
                   else ret None) in
                match err with
                | Some _ => ret err
                | None =>
                    let containerID :=
                      GetContainerIDForAlias containers (Exec.Component exec) in
                    let compInfo := ComponentInfo.mk containerID in
                    if componentExists && negb (IsRestartRequired command)
                    then
                      call (ExecuteDevfileRunActionWithoutRestart exec (Exec.Id exec)
                              compInfo show)
                           (λ _, EExecuteDevfileRunActionWithoutRestart exec containerID)
                    else
                      call (ExecuteDevfileRunAction exec (Exec.Id exec) compInfo show)
                           (λ _, EExecuteDevfileRunAction exec containerID)
                end
            | None => ret err
            end
        end
    end.

(** *** The caller *)

(** Modelled from the spec: [Push], the caller of [updateComponent] and
    [execDevfile], is not in this file. The spec gives the data flow
    "Reconciler -> Command Pipeline", says that a fatal reconciliation error
    means "reconciliation of the whole push is aborted", and that the result
    of the reconciler "is surfaced to the Command Pipeline as
    componentExists". *)
Definition Push (a : Adapter.t)
    (commandsMap : gmap DevfileCommandGroupType DevfileCommand.t)
    (show : bool) (containers : list LiveContainer.t) : M (option error) :=
  let* (componentExists, err) := updateComponent a in
  match err with
  | Some _ => ret (errors.Wrapf err "unable to create or update component")
  | None => execDevfile a commandsMap componentExists show containers
  end.

End Component.

(** ** A small engine, used to run the code on concrete inputs

    Volumes and containers are kept in lists; containers are selected by
    their ["component"] and ["alias"] labels; the storage adapter and the exec
    helpers fail exactly when the world says so. *)
Module Mock.

Record World : Type := mkWorld {
  volumes : list Volume.t;
  containers : list (LiveContainer.t * Config.t);
  urls : list EnvInfoURL.t;
  storageErr : option error;
  failingCommands : list string;
  started : nat
}.

Definition withVolumes (w : World) (vs : list Volume.t) : World :=
  mkWorld vs (containers w) (urls w) (storageErr w) (failingCommands w) (started w).

Definition withContainers (w : World) (cs : list (LiveContainer.t * Config.t))
    (n : nat) : World :=
  mkWorld (volumes w) cs (urls w) (storageErr w) (failingCommands w) n.

Definition hasLabel (labels : gmap string string) (key value : string) : bool :=
  bool_decide (labels !! key = Some value).

Definition runCommand (id : string) (w : World) : option error * World :=
  (if existsb (String.eqb id) (failingCommands w)
   then fmt.Errorf ("command failed: " +:+ id) else None, w).

Definition containerID (n : nat) : string := "c" +:+ Itoa (Z.of_nat n).

#[export] Instance collaborators : Collaborators World := {|
  GetVolumesByLabel labels w :=
    ((filter (λ v, hasLabel (Volume.Labels v) "component"
                     (default "" (labels !! "component"))) (volumes w), None), w);
  CreateVolume name labels w :=
    let v := Volume.mk name labels in
    ((v, None), withVolumes w (volumes w ++ [v]));
  GetContainersByComponentAndAlias component alias w :=
    ((map fst
        (filter (λ c, hasLabel (LiveContainer.Labels c.1) "component" component
                      && hasLabel (LiveContainer.Labels c.1) "alias" alias)
           (containers w)), None), w);
  GetContainerConfigHostConfigAndMounts id w :=
    match filter (λ c, String.eqb (LiveContainer.ID c.1) id) (containers w) with
    | c :: _ => ((c.2, HostConfig.zero, [], None), w)
    | [] => ((Config.mk "" [] [] [] ∅ [], HostConfig.zero, [],
              fmt.Errorf ("No such container: " +:+ id)), w)
    end;
  RemoveContainer id w :=
    (None,
     withContainers w
       (filter (λ c, negb (String.eqb (LiveContainer.ID c.1) id)) (containers w))
       (started w));
  PullImage image w := (None, w);
  StartContainer config hostConfig w :=
    (None,
     withContainers w
       (containers w ++
        [(LiveContainer.mk (containerID (started w)) (Config.Labels config)
            (String.concat " " (Config.Entrypoint config)), config)])
       (S (started w)));
  GenerateVolName base componentName w :=
    ((base +:+ "-" +:+ componentName +:+ "-abcd", None), w);
  StorageCreate storages w := (storageErr w, w);
  Getwd w := ("/project", None);
  NewEnvSpecificInfo dir w := (urls w, None);
  ExecuteDevfileBuildAction exec id compInfo show := runCommand id;
  ExecuteDevfileRunAction exec id compInfo show := runCommand id;
  ExecuteDevfileRunActionWithoutRestart exec id compInfo show := runCommand id;
  ExecuteCommand compInfo command show w := (None, w)
|}.

#[export] Instance helpers : Helpers := {|
  GetProjectVolumeLabels componentName :=
    {[ "component" := componentName; "type" := "projectsource" ]};
  GetContainerLabels componentName alias :=
    {[ "component" := componentName; "alias" := alias ]};
  GetSupportedComponents data := DevfileData.Components data;
  GetRunCommand data name :=
    (DevfileCommand.mk (Exec.mk name "runtime" "npm start" false), None);
  UpdateComponentWithSupervisord comp runCommand volume hostConfig := (comp, hostConfig);
  DoesContainerNeedUpdating comp config hostConfig mounts mountPoints portMap :=
    negb (String.eqb (Container.Image (DevfileComponent.Container comp))
            (Config.Image config));
  ConvertEnvs envs := map (λ e, Env.Name e +:+ "=" +:+ Env.Value e) envs;
  ConvertPorts endpoints := map Endpoint.TargetPort endpoints;
  GenerateContainerConfig image entrypoint args envVars labels ports :=
    Config.mk image entrypoint args envVars labels ports;
  GenerateHostConfig privileged publishAll portMap :=
    HostConfig.mk privileged publishAll portMap [];
  GetContainerIDForAlias containers alias :=
    match filter (λ c, hasLabel (LiveContainer.Labels c) "alias" alias) containers with
    | c :: _ => LiveContainer.ID c
    | [] => ""
    end;
  SupervisordBinaryPath := "/opt/odo/bin/supervisord";
  SupervisordConfFile := "/opt/odo/conf/devfile-supervisor.conf";
  EnvCheProjectsRoot := "CHE_PROJECTS_ROOT";
  OdoSourceVolumeMount := "/projects"
|}.

(** A component "nodejs" with one container "runtime". *)
Definition runtime (image : string) : DevfileComponent.t :=
  DevfileComponent.mk
    (Container.mk "runtime" image [] [] [] [Endpoint.mk "web" 8080] true).

Definition adapter (image : string) : Adapter.t :=
  Adapter.mk "nodejs" "" (DevfileData.mk [runtime image] []) [] ∅ ∅ "devrun" "supervisord".

Definition sourceVolume (name : string) : Volume.t :=
  Volume.mk name (GetProjectVolumeLabels "nodejs").

Definition live (id image : string) : LiveContainer.t * Config.t :=
  (LiveContainer.mk id (GetContainerLabels "nodejs" "runtime") "/opt/odo/bin/supervisord",
   Config.mk image [] [] ["CHE_PROJECTS_ROOT=/projects"]
     (GetContainerLabels "nodejs" "runtime") [8080]).

Definition world (vs : list Volume.t) (cs : list (LiveContainer.t * Config.t)) : World :=
  mkWorld vs cs [] None [] (length cs).

End Mock.

(** ** Vocabulary of the properties *)

(** An exposed URL that the port mapper binds: positive exposed port and a
    container port among the declared endpoints. *)
Definition bound (endpoints : list Endpoint.t) (url : EnvInfoURL.t) : bool :=
  (0 <? EnvInfoURL.ExposedPort url) && IsPortPresent endpoints (EnvInfoURL.Port url).

(** An exposed URL that refers to an endpoint the component no longer
    declares, while it declares others. *)
Definition stale (endpoints : list Endpoint.t) (url : EnvInfoURL.t) : bool :=
  (0 <? EnvInfoURL.ExposedPort url) && (0 <? length endpoints)%nat
  && negb (IsPortPresent endpoints (EnvInfoURL.Port url)).

Definition validPort (p : Z) : bool := (0 <=? p) && (p <=? 65535).

(** A URL the mapper gets past: not stale, and if bound then with a container
    port that [nat.NewPort] accepts. *)
Definition mappable (endpoints : list Endpoint.t) (url : EnvInfoURL.t) : Prop :=
  stale endpoints url = false ∧
  (bound endpoints url = true → validPort (EnvInfoURL.Port url) = true).

(** The last bound URL of the list for container port [p]. *)
Definition lastBound (endpoints : list Endpoint.t) (urlArr : list EnvInfoURL.t)
    (p : Z) : option EnvInfoURL.t :=
  last (filter (λ url, bound endpoints url && (EnvInfoURL.Port url =? p)) urlArr).

Definition bindingOf (url : EnvInfoURL.t) : list PortBinding.t :=
  [PortBinding.mk LocalhostIP (Itoa (EnvInfoURL.ExposedPort url))].


(** Classification of events. *)
Definition isPull (ev : Event) : bool :=
  match ev with EPullImage _ => true | _ => false end.

Definition isStart (ev : Event) : bool :=
  match ev with EStartContainer _ _ => true | _ => false end.


Definition isCreateVolume (ev : Event) : bool :=
  match ev with ECreateVolume _ _ => true | _ => false end.

(** A call of the exec helpers: a devfile command or the supervisor. *)
Definition isExec (ev : Event) : bool :=
  match ev with
  | EExecuteDevfileBuildAction _ _ | EExecuteDevfileRunAction _ _
  | EExecuteDevfileRunActionWithoutRestart _ _ | EExecuteCommand _ _ => true
  | _ => false
  end.


Definition isListing (ev : Event) : bool :=
  match ev with EGetContainersByComponentAndAlias _ _ _ _ => true | _ => false end.

(** The engine answered a listing with two or more live containers. *)
Definition isConflict (ev : Event) : bool :=
  match ev with
  | EGetContainersByComponentAndAlias _ _ found None => (2 <=? length found)%nat
  | _ => false
  end.

(** The error of line 195 for the container [alias]. *)
Definition conflictError (alias : string) : error :=
  errorString ("Found multiple running containers for devfile component " +:+
               alias +:+ " and cannot push changes").

(** An event of a pass that leaves a container as it is: a listing that
    finds exactly one container, and no pull, removal or start. *)
Definition steady (ev : Event) : bool :=
  match ev with
  | EGetContainersByComponentAndAlias _ _ found _ => (length found =? 1)%nat
  | ERemoveContainer _ | EPullImage _ | EStartContainer _ _ => false
  | _ => true
  end.

(** The container aliases a trace lists, in order. *)
Definition listedAliases (tr : list Event) : list string :=
  omap (λ ev, match ev with
              | EGetContainersByComponentAndAlias _ alias _ _ => Some alias
              | _ => None
              end) tr.

(** The alias a listing event is about. *)
Definition aliasOf (ev : Event) : string :=
  match ev with
  | EGetContainersByComponentAndAlias _ alias _ _ => alias
  | _ => ""
  end.

(** The three kinds of exec calls of the command pipeline. *)
Definition isBuildAction (ev : Event) : bool :=
  match ev with EExecuteDevfileBuildAction _ _ => true | _ => false end.

Definition isRunAction (ev : Event) : bool :=
  match ev with
  | EExecuteDevfileRunAction _ _ | EExecuteDevfileRunActionWithoutRestart _ _ => true
  | _ => false
  end.

Definition isSupervisorInit (ev : Event) : bool :=
  match ev with EExecuteCommand _ _ => true | _ => false end.

(** ** Concrete inputs *)
Module Inputs.
Import Mock.

Definition labels : gmap string string := GetProjectVolumeLabels "nodejs".
Definition v1 : Volume.t := sourceVolume "v1".
Definition v2 : Volume.t := sourceVolume "v2".

(** No volume and no container yet. *)
Definition fresh : World := world [] [].

(** The source volume and one container of image ["img:1"]. *)
Definition running : World := world [v1] [live "c0" "img:1"].

(** Two containers carry the labels of the same (component, alias). *)
Definition duplicated : World := world [v1] [live "c0" "img:1"; live "c1" "img:1"].

(** Two source volumes. *)
Definition twoVolumes : World := world [v1; v2] [].

(** The storage adapter fails; no container runs. *)
Definition storageDown : World :=
  mkWorld [v1] [] [] (Some (errorString "no space left on device")) [] 0.

Definition initCommand : DevfileCommand.t :=
  DevfileCommand.mk (Exec.mk "devinit" "runtime" "npm install" false).
Definition buildCommand : DevfileCommand.t :=
  DevfileCommand.mk (Exec.mk "devbuild" "runtime" "npm run build" false).
Definition runCommand : DevfileCommand.t :=
  DevfileCommand.mk (Exec.mk "devrun" "runtime" "npm start" false).

Definition commands : gmap DevfileCommandGroupType DevfileCommand.t :=
  {[ InitCommandGroupType := initCommand;
     BuildCommandGroupType := buildCommand;
     RunCommandGroupType := runCommand ]}.

Definition listed : list LiveContainer.t := [(live "c0" "img:1").1].
Definition bothListed : list LiveContainer.t :=
  [(live "c0" "img:1").1; (live "c1" "img:1").1].

(** The adapter of a devfile that asks for the image that runs, and of one
    that asks for a newer image. *)
Definition current : Adapter.t := adapter "img:1".
Definition upgraded : Adapter.t := adapter "img:2".

(** The Build command fails. *)
Definition buildFails : World :=
  mkWorld [v1] [live "c0" "img:1"] [] None ["devbuild"] 1.

(** The name the engine generates for the source volume, and the world
    after its creation. *)
Definition generated : string := "odo-project-source-nodejs-abcd".
Definition created : World := withVolumes fresh [Volume.mk generated labels].

Definition conflictTrace : list Event :=
  [EGetVolumesByLabel labels; EStorageCreate [];
   EGetContainersByComponentAndAlias "nodejs" "runtime" bothListed None].


End Inputs.

(** ** Vocabulary of the properties of the create path, of the start of a
    container and of the supervisor *)

Definition isStorageCreate (ev : Event) : bool :=
  match ev with EStorageCreate _ => true | _ => false end.

Definition isInspect (ev : Event) : bool :=
  match ev with EGetContainerConfigHostConfigAndMounts _ => true | _ => false end.

Definition isListVolumes (ev : Event) : bool :=
  match ev with EGetVolumesByLabel _ => true | _ => false end.

(** [comp.Container.Image] and [comp.Container.Name]. *)
Definition imageOf (comp : DevfileComponent.t) : string :=
  Container.Image (DevfileComponent.Container comp).

Definition nameOf (comp : DevfileComponent.t) : string :=
  Container.Name (DevfileComponent.Container comp).

(** The calls that create the containers of [comps], one after the other:
    the pull of the image of a component, then the start of its container
    with the configurations [starts] gives for it. *)
Definition pulledAndStarted (comps : list DevfileComponent.t)
    (starts : list (Config.t * HostConfig.t)) : list Event :=
  flat_map (λ p, [EPullImage (imageOf p.1); EStartContainer p.2.1 p.2.2])
    (zip comps starts).

(** The message an error carries at its top. *)
Definition message (e : error) : string :=
  match e with
  | errorString msg => msg
  | withMessage _ msg => msg
  end.

(** The error an error wraps, if it wraps one. *)
Definition cause (e : error) : option error :=
  match e with
  | errorString _ => None
  | withMessage c _ => Some c
  end.

Section Supervisor.
Context {helpers : Helpers}.

(** The test of line 411: the container carries the alias of the component
    and its command does not start the supervisor. *)
Definition needsSupervisord (component : string) (container : LiveContainer.t) : bool :=
  bool_decide (default "" (LiveContainer.Labels container !! "alias") = component)
  && negb (Contains (LiveContainer.Command container) SupervisordBinaryPath).

(** The command of line 412. *)
Definition supervisordCommand : list string :=
  [SupervisordBinaryPath; "-c"; SupervisordConfFile; "-d"].

Definition supervisordInit (container : LiveContainer.t) : Event :=
  EExecuteCommand (LiveContainer.ID container) supervisordCommand.

End Supervisor.





(** ** An engine that fails on demand

    The engine of [Mock], except that the pull of an image of [badImages]
    fails and that no command can be run in a container of
    [badContainers]. *)
Module Flaky.
Import Mock.

Definition fails (name : string) (bad : list string) : option error :=
  if existsb (String.eqb name) bad then fmt.Errorf ("engine failure: " +:+ name) else None.

Definition collaborators (badImages badContainers : list string)
    : Collaborators World := {|
  GetVolumesByLabel := GetVolumesByLabel (W := World);
  CreateVolume := CreateVolume (W := World);
  GetContainersByComponentAndAlias := GetContainersByComponentAndAlias (W := World);
  GetContainerConfigHostConfigAndMounts :=
    GetContainerConfigHostConfigAndMounts (W := World);
  RemoveContainer := RemoveContainer (W := World);
  PullImage image w := (fails image badImages, w);
  StartContainer := StartContainer (W := World);
  GenerateVolName := GenerateVolName (W := World);
  StorageCreate := StorageCreate (W := World);
  Getwd := Getwd (W := World);
  NewEnvSpecificInfo := NewEnvSpecificInfo (W := World);
  ExecuteDevfileBuildAction := ExecuteDevfileBuildAction (W := World);
  ExecuteDevfileRunAction := ExecuteDevfileRunAction (W := World);
  ExecuteDevfileRunActionWithoutRestart :=
    ExecuteDevfileRunActionWithoutRestart (W := World);
  ExecuteCommand compInfo command show w :=
    (fails (ComponentInfo.ContainerName compInfo) badContainers, w)
|}.

End Flaky.

(** ** Further concrete inputs *)
Module Scenarios.
Import Mock Inputs.

Definition web : list Endpoint.t := [Endpoint.mk "web" 8080].

(** A URL of the declared endpoint, and one of an endpoint that is no longer
    declared. *)
Definition appURL : EnvInfoURL.t := EnvInfoURL.mk "app" 8080 20001.
Definition oldURL : EnvInfoURL.t := EnvInfoURL.mk "old" 9090 20002.

(** A URL that was never exposed. *)
Definition unexposedURL : EnvInfoURL.t := EnvInfoURL.mk "later" 8080 0.

Definition appPorts : gmap Z (list PortBinding.t) :=
  {[ 8080 := [PortBinding.mk "127.0.0.1" "20001"] ]}.
Definition appNames : gmap Z string := {[ 8080 := "app" ]}.

(** The container runs and the URL of its endpoint is exposed. *)
Definition exposed : World := mkWorld [v1] [live "c0" "img:1"] [appURL] None [] 1.

(** The container runs and the environment file still has the old URL. *)
Definition outdated : World := mkWorld [v1] [live "c0" "img:1"] [oldURL] None [] 1.


(** Only a URL that is not exposed. *)
Definition unexposed : World := mkWorld [v1] [] [unexposedURL] None [] 0.

(** A devfile without component. *)
Definition noComponent : Adapter.t :=
  Adapter.mk "nodejs" "" (DevfileData.mk [] []) [] ∅ ∅ "devrun" "supervisord".

(** A devfile with two containers. *)
Definition tools : DevfileComponent.t :=
  DevfileComponent.mk (Container.mk "tools" "img:tools" [] [] [] [] false).
Definition twoContainers : Adapter.t :=
  Adapter.mk "nodejs" "" (DevfileData.mk [runtime "img:1"; tools] []) [] ∅ ∅
    "devrun" "supervisord".

(** Containers of the alias ["runtime"] whose command is not the supervisor,
    and one that already runs it. *)
Definition plain (id : string) : LiveContainer.t :=
  LiveContainer.mk id (GetContainerLabels "nodejs" "runtime") "npm start".
Definition supervised : LiveContainer.t := (live "c9" "img:1").1.

Definition testCommand : DevfileCommand.t :=
  DevfileCommand.mk (Exec.mk "devtest" "runtime" "npm test" false).
Definition testOnly : gmap DevfileCommandGroupType DevfileCommand.t :=
  {[ TestCommandGroupType := testCommand ]}.

End Scenarios.
(** ** The port mapper *)

Section PortMapper.

(** [getPortMap] is its loop, run on the URLs read from the environment
    file of the context directory; it issues no call and leaves the world
    as it is. *)
Lemma getPortMap_on_urls {W : Type} {collab : Collaborators W}
    context endpoints show (w : W) dir urlArr :
  (if decide (context = "") then Getwd w = (dir, None) else dir = context) →
  NewEnvSpecificInfo dir w = (urlArr, None) →
  getPortMap context endpoints show w = (getPortMap_loop endpoints urlArr ∅ ∅, w, []).
Proof.
  intros Hdir Hurls. unfold getPortMap, bind, ret, peek.
  destruct (decide (context = "")); [rewrite Hdir|subst dir]; cbn;
    rewrite Hurls; cbn; by destruct (getPortMap_loop _ _ _ _) as [[? ?] ?].
Qed.

Lemma getPortMap_loop_cons endpoints url rest portmap names :
  getPortMap_loop endpoints (url :: rest) portmap names =
  if bound endpoints url then
    let '(port, err) := dockernat.NewPort "tcp" (EnvInfoURL.Port url) in
    match err with
    | Some _ => (None, None, err)
    | None =>
        getPortMap_loop endpoints rest
          (<[port := bindingOf url]> portmap)
          (<[port := EnvInfoURL.Name url]> names)
    end
  else if stale endpoints url then
    (None, None,
     fmt.Errorf "Error creating url: odo url config's port is not present in the devfile. Please re-create odo url with the new devfile port")
  else getPortMap_loop endpoints rest portmap names.
Proof. reflexivity. Qed.

Lemma getPortMap_loop_filter endpoints urlArr :
  ∀ portmap names,
    getPortMap_loop endpoints
      (filter (λ url, 0 <? EnvInfoURL.ExposedPort url) urlArr) portmap names
    = getPortMap_loop endpoints urlArr portmap names.
Proof.
  induction urlArr as [|url rest IH]; intros portmap names; [done|].
  rewrite filter_cons. destruct (0 <? EnvInfoURL.ExposedPort url) eqn:Hpos.
  - rewrite decide_True by done.
    rewrite !getPortMap_loop_cons.
    repeat case_match; try done; apply IH.
  - rewrite decide_False by (intros []).
    rewrite getPortMap_loop_cons. unfold bound, stale. rewrite Hpos. apply IH.
Qed.

Lemma lastBound_cons endpoints url rest p :
  lastBound endpoints (url :: rest) p =
  match lastBound endpoints rest p with
  | Some u => Some u
  | None => if bound endpoints url && (EnvInfoURL.Port url =? p) then Some url else None
  end.
Proof.
  unfold lastBound. rewrite filter_cons.
  destruct (bound endpoints url && (EnvInfoURL.Port url =? p)) eqn:Hb.
  - rewrite decide_True by done.
    rewrite last_cons. by destruct (last _).
  - rewrite decide_False by (intros []). by destruct (last _).
Qed.

Lemma NewPort_valid proto p :
  validPort p = true → dockernat.NewPort proto p = (p, None).
Proof. unfold dockernat.NewPort, validPort. by intros ->. Qed.

Lemma NewPort_invalid proto p :
  validPort p = false → ∃ e, dockernat.NewPort proto p = (0, Some e).
Proof. unfold dockernat.NewPort, validPort. intros ->. by eexists. Qed.

Lemma bound_stale_excl endpoints url :
  bound endpoints url = true → stale endpoints url = false.
Proof.
  unfold bound, stale. intros [_ ->]%andb_prop. by rewrite andb_false_r.
Qed.

Lemma getPortMap_loop_ok endpoints urlArr :
  Forall (mappable endpoints) urlArr →
  ∀ portmap names, ∃ pm nm,
    getPortMap_loop endpoints urlArr portmap names = (Some pm, Some nm, None) ∧
    ∀ p,
      pm !! p = match lastBound endpoints urlArr p with
                | Some u => Some (bindingOf u)
                | None => portmap !! p
                end ∧
      nm !! p = match lastBound endpoints urlArr p with
                | Some u => Some (EnvInfoURL.Name u)
                | None => names !! p
                end.
Proof.
  induction 1 as [|url rest [Hst Hval] _ IH]; intros portmap names.
  - exists portmap, names. done.
  - rewrite getPortMap_loop_cons.
    destruct (bound endpoints url) eqn:Hb.
    + rewrite (NewPort_valid _ _ (Hval eq_refl)).
      destruct (IH (<[EnvInfoURL.Port url := bindingOf url]> portmap)
                   (<[EnvInfoURL.Port url := EnvInfoURL.Name url]> names))
        as (pm & nm & Heq & Hlk).
      exists pm, nm. split; [exact Heq|]. intros p. rewrite lastBound_cons, Hb. simpl.
      destruct (Hlk p) as [Hp Hn]. rewrite Hp, Hn.
      destruct (lastBound endpoints rest p); [done|].
      destruct (Z.eqb_spec (EnvInfoURL.Port url) p) as [->|Hne].
      * by rewrite !lookup_insert_eq.
      * by rewrite !lookup_insert_ne.
    + rewrite Hst.
      destruct (IH portmap names) as (pm & nm & Heq & Hlk).
      exists pm, nm. split; [exact Heq|]. intros p. rewrite lastBound_cons, Hb. simpl.
      destruct (Hlk p) as [Hp Hn]. rewrite Hp, Hn. by destruct (lastBound _ _ _).
Qed.

Lemma getPortMap_loop_result endpoints urlArr :
  ∀ portmap names,
    (∃ pm nm, getPortMap_loop endpoints urlArr portmap names = (Some pm, Some nm, None)) ∨
    (∃ e, getPortMap_loop endpoints urlArr portmap names = (None, None, Some e)).
Proof.
  induction urlArr as [|url rest IH]; intros portmap names; [left; by eexists _, _|].
  rewrite getPortMap_loop_cons.
  unfold dockernat.NewPort, fmt.Errorf. repeat case_match; simplify_eq/=; eauto.
Qed.

Lemma getPortMap_loop_fail endpoints urlArr :
  Exists (λ url, ¬ mappable endpoints url) urlArr →
  ∀ portmap names, ∃ e,
    getPortMap_loop endpoints urlArr portmap names = (None, None, Some e).
Proof.
  induction 1 as [url rest Hbad|url rest _ IH]; intros portmap names.
  - rewrite getPortMap_loop_cons. destruct (bound endpoints url) eqn:Hb.
    + destruct (validPort (EnvInfoURL.Port url)) eqn:Hv.
      * exfalso. apply Hbad. split; [by apply bound_stale_excl|done].
      * destruct (NewPort_invalid "tcp" _ Hv) as [e ->]. eauto.
    + destruct (stale endpoints url) eqn:Hs; [eauto|].
      exfalso. apply Hbad. split; [done|]. by rewrite Hb.
  - destruct (getPortMap_loop_result endpoints (url :: rest) portmap names)
      as [(pm & nm & Heq)|Hfail]; [|exact Hfail].
    exfalso. rewrite getPortMap_loop_cons in Heq. unfold dockernat.NewPort in Heq.
    repeat case_match; simplify_eq/=;
      match goal with
      | H : getPortMap_loop _ _ ?a ?b = _ |- _ =>
          destruct (IH a b) as [e He]; rewrite He in H; discriminate
      end.
Qed.

Lemma getPortMap_loop_no_endpoints urlArr :
  ∀ portmap names,
    getPortMap_loop [] urlArr portmap names = (Some portmap, Some names, None).
Proof.
  induction urlArr as [|url rest IH]; intros portmap names; [done|].
  rewrite getPortMap_loop_cons. unfold bound, stale. simpl.
  rewrite !andb_false_r. simpl. apply IH.
Qed.

(** C9. An exposed URL whose exposed port is not positive is skipped
    entirely by the port mapper: the result on a list of URLs is the result
    on the list without that URL, so it adds no binding and no label and
    cannot make the mapping fail, whatever its container port and whatever
    the declared endpoints are. *)
Theorem getPortMap_skips_nonpositive_exposed_port
    (endpoints : list Endpoint.t) (before after : list EnvInfoURL.t)
    (url : EnvInfoURL.t) (portmap : gmap Z (list PortBinding.t))
    (names : gmap Z string) :
  EnvInfoURL.ExposedPort url ≤ 0 →
  getPortMap_loop endpoints (before ++ url :: after) portmap names
  = getPortMap_loop endpoints (before ++ after) portmap names.
Proof.
  intros Hle.
  rewrite <- (getPortMap_loop_filter endpoints (before ++ url :: after)).
  rewrite <- (getPortMap_loop_filter endpoints (before ++ after)).
  rewrite !filter_app, filter_cons.
  rewrite decide_False; [done|].
  intros Hpos. apply Is_true_true, Z.ltb_lt in Hpos. lia.
Qed.

(** A URL with exposed port 0 on a port that is not declared changes
    nothing. *)
Lemma getPortMap_skips_nonpositive_exposed_port_witness :
  EnvInfoURL.ExposedPort (EnvInfoURL.mk "old" 9090 0) ≤ 0 ∧
  getPortMap_loop [Endpoint.mk "web" 8080]
    ([EnvInfoURL.mk "app" 8080 20001] ++ EnvInfoURL.mk "old" 9090 0 :: []) ∅ ∅
  = getPortMap_loop [Endpoint.mk "web" 8080]
      ([EnvInfoURL.mk "app" 8080 20001] ++ []) ∅ ∅.
Proof.
  split; [simpl; lia|].
  apply getPortMap_skips_nonpositive_exposed_port. simpl; lia.
Defined.

(** C4, as stated, fails: with two exposed URLs on the same container port
    the mapper succeeds, but the first URL has no binding and no label of
    its own in the result. *)
Lemma getPortMap_binds_each_url_counterexample :
  ¬ (∀ (endpoints : list Endpoint.t) (urlArr : list EnvInfoURL.t)
       (pm : gmap Z (list PortBinding.t)) (nm : gmap Z string),
       getPortMap_loop endpoints urlArr ∅ ∅ = (Some pm, Some nm, None) →
       ∀ url, In url urlArr →
         0 < EnvInfoURL.ExposedPort url →
         IsPortPresent endpoints (EnvInfoURL.Port url) = true →
         pm !! EnvInfoURL.Port url
           = Some [PortBinding.mk "127.0.0.1" (Itoa (EnvInfoURL.ExposedPort url))] ∧
         nm !! EnvInfoURL.Port url = Some (EnvInfoURL.Name url)).
Proof.
  intros H.
  destruct (H [Endpoint.mk "web" 8080]
              [EnvInfoURL.mk "app" 8080 20001; EnvInfoURL.mk "admin" 8080 20002]
              _ _ eq_refl (EnvInfoURL.mk "app" 8080 20001)) as [_ Hname];
    [by left | done | done |].
  vm_compute in Hname. discriminate.
Qed.

(** C4, amended. On every list of exposed URLs the port mapper either
    succeeds with both maps or fails with an error and two nil maps.
    - When no URL is stale and every bound URL has a container port that
      [nat.NewPort] accepts, it succeeds, and each container port is mapped
      exactly when some bound URL has it: to the single binding
      [127.0.0.1:exposedPort] and to the name of the last such URL.
    - When some URL is stale, or a bound URL has an unacceptable container
      port, it fails and returns no map.
    - When no endpoint is declared it succeeds with empty maps. *)
Theorem getPortMap_binds_last_url_per_port
    (endpoints : list Endpoint.t) (urlArr : list EnvInfoURL.t) :
  (Forall (mappable endpoints) urlArr →
   ∃ pm nm,
     getPortMap_loop endpoints urlArr ∅ ∅ = (Some pm, Some nm, None) ∧
     ∀ p, pm !! p = bindingOf <$> lastBound endpoints urlArr p ∧
          nm !! p = EnvInfoURL.Name <$> lastBound endpoints urlArr p) ∧
  (Exists (λ url, ¬ mappable endpoints url) urlArr →
   ∃ e, getPortMap_loop endpoints urlArr ∅ ∅ = (None, None, Some e)) ∧
  (Exists (λ url, stale endpoints url = true) urlArr →
   ∃ e, getPortMap_loop endpoints urlArr ∅ ∅ = (None, None, Some e)) ∧
  (endpoints = [] →
   getPortMap_loop endpoints urlArr ∅ ∅ = (Some ∅, Some ∅, None)).
Proof.
  split; [|split; [|split]].
  - intros Hok. destruct (getPortMap_loop_ok _ _ Hok ∅ ∅) as (pm & nm & Heq & Hlk).
    exists pm, nm. split; [exact Heq|]. intros p. destruct (Hlk p) as [-> ->].
    destruct (lastBound endpoints urlArr p); by rewrite ?lookup_empty.
  - intros Hbad. by apply getPortMap_loop_fail.
  - intros Hst. apply getPortMap_loop_fail.
    eapply Exists_impl; [exact Hst|]. intros url Hs [Hn _]. congruence.
  - intros ->. apply getPortMap_loop_no_endpoints.
Qed.

(** Two URLs on port 8080: the binding and the name are the second one's. *)
Lemma getPortMap_binds_last_url_per_port_witness :
  let endpoints := [Endpoint.mk "web" 8080] in
  let urlArr := [EnvInfoURL.mk "app" 8080 20001; EnvInfoURL.mk "admin" 8080 20002] in
  Forall (mappable endpoints) urlArr ∧
  ∃ pm nm,
    getPortMap_loop endpoints urlArr ∅ ∅ = (Some pm, Some nm, None) ∧
    pm !! 8080 = Some [PortBinding.mk "127.0.0.1" "20002"] ∧
    nm !! 8080 = Some "admin".
Proof.
  intros endpoints urlArr.
  assert (Hok : Forall (mappable endpoints) urlArr).
  { repeat constructor; done. }
  split; [exact Hok|].
  destruct (getPortMap_binds_last_url_per_port endpoints urlArr) as [Hbind _].
  destruct (Hbind Hok) as (pm & nm & Heq & Hlk).
  exists pm, nm. split; [exact Heq|]. destruct (Hlk 8080) as [-> ->]. done.
Defined.

End PortMapper.

(** ** The reconciler *)

Section Reconciler.
Context {W : Type} {collab : Collaborators W} {helpers : Helpers}.

Lemma getPortMap_quiet context endpoints show (w : W) r w' tr :
  getPortMap context endpoints show w = (r, w', tr) → w' = w ∧ tr = [].
Proof.
  unfold getPortMap, bind, ret, peek. intros H.
  repeat case_match; simplify_eq/=; done.
Qed.

Lemma generateAndGetHostConfig_quiet a endpoints (w : W) r w' tr :
  generateAndGetHostConfig a endpoints w = (r, w', tr) → w' = w ∧ tr = [].
Proof.
  unfold generateAndGetHostConfig, bind, ret. intros H.
  destruct (getPortMap _ _ _ w) as [[? ?] ?] eqn:Hp.
  apply getPortMap_quiet in Hp as [-> ->].
  repeat case_match; simplify_eq/=; done.
Qed.

(** [startComponent] issues at most one call, the start of the container. *)
Lemma startComponent_trace a mounts vol comp (w : W) e w' tr :
  startComponent a mounts vol comp w = (e, w', tr) →
  (tr = [] ∧ w' = w ∧ is_Some e) ∨
  (∃ cfg hc, tr = [EStartContainer cfg hc] ∧ StartContainer cfg hc w = (e, w')).
Proof.
  unfold startComponent, bind, ret, call. intros H.
  destruct (generateAndGetHostConfig _ _ w) as [[? ?] ?] eqn:Hp.
  apply generateAndGetHostConfig_quiet in Hp as [-> ->].
  repeat case_match; simplify_eq/=; eauto 10.
Qed.

Lemma startComponent_events a mounts vol comp (w : W) e w' tr :
  startComponent a mounts vol comp w = (e, w', tr) → Forall (λ ev, isStart ev = true) tr.
Proof.
  intros [(-> & _)|(cfg & hc & -> & _)]%startComponent_trace; repeat constructor.
Qed.

(** [pullAndStartContainer] first pulls the image and then starts. *)
Lemma pullAndStartContainer_trace a mounts vol comp (w : W) e w' tr :
  pullAndStartContainer a mounts vol comp w = (e, w', tr) →
  ∃ ts, tr = EPullImage (Container.Image (DevfileComponent.Container comp)) :: ts ∧
        Forall (λ ev, isStart ev = true) ts.
Proof.
  unfold pullAndStartContainer, bind, ret, call. intros H.
  destruct (PullImage _ w) as [e1 w1].
  destruct e1.
  - simplify_eq/=. eexists; split; [done|constructor].
  - destruct (startComponent _ _ _ _ w1) as [[e2 w2] ts] eqn:Hs.
    apply startComponent_events in Hs.
    destruct e2; simplify_eq/=; eexists; split; try done; by rewrite app_nil_r.
Qed.

(** Every way one iteration of the loop of [updateComponent] can go. *)
Lemma updateComponent_body_cases a vol flag comp (w : W) step w' tr :
  updateComponent_body a vol flag comp w = (step, w', tr) →
  let name := Adapter.ComponentName a in
  let alias := Container.Name (DevfileComponent.Container comp) in
  ∃ found err rest,
    tr = EGetContainersByComponentAndAlias name alias found err :: rest ∧
    ((is_Some err ∧ rest = [] ∧ ∃ e, step = Return false (Some e)) ∨
     (err = None ∧ found = [] ∧
      (∃ ts, rest = EPullImage (Container.Image (DevfileComponent.Container comp)) :: ts ∧
             Forall (λ ev, isStart ev = true) ts) ∧
      (step = Continue false ∨ ∃ e, step = Return false (Some e))) ∨
     (err = None ∧ ∃ c, found = [c] ∧
      ((rest = [EGetContainerConfigHostConfigAndMounts (LiveContainer.ID c)] ∧
        (step = Continue flag ∨ ∃ e, step = Return flag (Some e))) ∨
       (∃ ts, rest = EGetContainerConfigHostConfigAndMounts (LiveContainer.ID c)
                     :: ERemoveContainer (LiveContainer.ID c) :: ts ∧
              Forall (λ ev, isStart ev = true) ts ∧
              (step = Continue false ∨ ∃ b e, step = Return b (Some e))))) ∨
     (err = None ∧ (2 ≤ length found)%nat ∧ rest = [] ∧
      step = Return true (Some (conflictError alias)))).
Proof.
  intros H name alias. unfold updateComponent_body, bind, ret, call in H.
  fold name alias in H.
  destruct (GetContainersByComponentAndAlias name alias w) as [[found err] w1].
  exists found, err. cbn [fst snd] in H.
  destruct err as [e|].
  { simplify_eq/=. eexists; split; [done|]. left. eauto. }
  destruct found as [|c [|c2 found]].
  - destruct (pullAndStartContainer _ _ _ _ w1) as [[e2 w2] ts] eqn:Hp.
    apply pullAndStartContainer_trace in Hp as (ts' & -> & Hts).
    destruct e2; simplify_eq/=; rewrite ?app_nil_r;
      (eexists; split; [done|]); right; left; eauto 10.
  - destruct (GetContainerConfigHostConfigAndMounts _ w1) as [[[[cfg hc] mps] e2] w2].
    destruct e2 as [e2|].
    { simplify_eq/=. eexists; split; [done|]. right; right; left.
      split; [done|]. eexists; split; [done|]. left. eauto. }
    destruct (getPortMap _ _ _ w2) as [[[[pm nm] e3] w3] t3] eqn:Hpm.
    apply getPortMap_quiet in Hpm as Hq. destruct Hq as [-> ->].
    destruct e3 as [e3|].
    { simplify_eq/=. eexists; split; [done|]. right; right; left.
      split; [done|]. eexists; split; [done|]. left. eauto. }
    destruct (DoesContainerNeedUpdating _ _ _ _ _ _).
    + destruct (RemoveContainer _ w2) as [e4 w4].
      destruct e4 as [e4|].
      { simplify_eq/=. eexists; split; [done|]. right; right; left.
        split; [done|]. eexists; split; [done|]. right.
        eexists; split; [done|]. split; [constructor|]. right. eauto. }
      destruct (startComponent _ _ _ _ w4) as [[e5 w5] ts] eqn:Hs.
      apply startComponent_events in Hs.
      destruct e5; simplify_eq/=; rewrite ?app_nil_r;
        (eexists; split; [done|]); right; right; left;
        (split; [done|]); (eexists; split; [done|]); right;
        (eexists; split; [done|]); (split; [done|]); eauto.
    + simplify_eq/=. eexists; split; [done|]. right; right; left.
      split; [done|]. eexists; split; [done|]. left. eauto.
  - simplify_eq/=. eexists; split; [done|]. right; right; right.
    repeat split; try done. lia.
Qed.

Lemma Forall_isStart_impl (P : Event → Prop) ts :
  (∀ cfg hc, P (EStartContainer cfg hc)) →
  Forall (λ ev, isStart ev = true) ts → Forall P ts.
Proof.
  intros HP Hts. eapply Forall_impl; [exact Hts|].
  intros [] ?; simplify_eq/=. apply HP.
Qed.

Lemma listedAliases_isStart ts :
  Forall (λ ev, isStart ev = true) ts → listedAliases ts = [].
Proof.
  induction 1 as [|ev ts Hev _ IH]; [done|].
  destruct ev; simplify_eq/=. exact IH.
Qed.

Ltac events_forall :=
  repeat first
    [ apply Forall_nil_2
    | apply Forall_cons_2; [done|]
    | by apply Forall_isStart_impl ].

Ltac events_in Hts :=
  let ev := fresh "ev" in
  let Hin := fresh "Hin" in
  let Hc := fresh "Hc" in
  intros ev Hin Hc; simpl in Hin;
  repeat (destruct Hin as [<-|Hin]; [try done|]);
  first
    [ done
    | rewrite Forall_forall in Hts; apply list_elem_of_In, Hts in Hin;
      destruct ev; simplify_eq/= ].

(** What one iteration guarantees, whatever the engine answers. *)
Lemma updateComponent_body_spec a vol flag comp (w : W) step w' tr :
  updateComponent_body a vol flag comp w = (step, w', tr) →
  let alias := Container.Name (DevfileComponent.Container comp) in
  Forall (λ ev, isExec ev = false) tr ∧
  listedAliases tr = [alias] ∧
  (∀ b e, step = Return b e → is_Some e) ∧
  (∀ f, step = Continue f →
        (f = true ↔ flag = true ∧ Forall (λ ev, steady ev = true) tr)) ∧
  (∀ f, step = Continue f → Forall (λ ev, isConflict ev = false) tr) ∧
  (∀ ev, In ev tr → isConflict ev = true →
         tr = [ev] ∧ step = Return true (Some (conflictError alias))).
Proof.
  intros H alias.
  destruct (updateComponent_body_cases _ _ _ _ _ _ _ _ H)
    as (found & err & rest & -> &
        [(Herr & -> & e & ->)
        |[(-> & -> & (ts & -> & Hts) & Hstep)
         |[(-> & c & -> & [(-> & Hstep)|(ts & -> & Hts & Hstep)])
          |(-> & Hlen & -> & ->)]]]).
  - destruct Herr as [e' ->]. split_and!; try done.
    + events_forall.
    + intros ? ? [= <- <-]. eauto.
    + events_in H.
  - split_and!.
    + events_forall.
    + cbn. by rewrite listedAliases_isStart.
    + destruct Hstep as [->|(e & ->)]; intros ? ? [= <- <-]; eauto.
    + intros f Hf. split.
      * intros ->. destruct Hstep as [->|(e & ->)]; done.
      * intros [_ Hall]. inversion Hall; simplify_eq/=.
    + intros f Hf. events_forall.
    + events_in Hts.
  - split_and!.
    + events_forall.
    + done.
    + destruct Hstep as [->|(e & ->)]; intros ? ? [= <- <-]; eauto.
    + intros f Hf. destruct Hstep as [->|(e & ->)]; simplify_eq/=. split.
      * intros ->. split; [done|]. events_forall.
      * by intros [-> _].
    + intros f Hf. events_forall.
    + events_in H.
  - split_and!.
    + events_forall.
    + cbn. by rewrite listedAliases_isStart.
    + destruct Hstep as [->|(b' & e & ->)]; intros ? ? [= <- <-]; eauto.
    + intros f Hf. split.
      * intros ->. destruct Hstep as [->|(? & e & ->)]; done.
      * intros [_ Hall]. exfalso.
        apply Forall_cons_1 in Hall as [_ Hall].
        apply Forall_cons_1 in Hall as [_ Hall].
        apply Forall_cons_1 in Hall as [Hall _]. done.
    + intros f Hf. events_forall.
    + events_in Hts.
  - split_and!; try done.
    + events_forall.
    + intros ? ? [= <- <-]. eauto.
    + intros ev [<-|[]] Hc. done.
Qed.

Lemma updateComponent_loop_cons a vol comp rest flag (w : W) :
  updateComponent_loop a vol (comp :: rest) flag w =
  let '(step, w1, t1) := updateComponent_body a vol flag comp w in
  match step with
  | Continue f =>
      let '(step2, w2, t2) := updateComponent_loop a vol rest f w1 in
      (step2, w2, t1 ++ t2)
  | Return _ _ => (step, w1, t1)
  end.
Proof.
  cbn [updateComponent_loop]. unfold bind, ret.
  destruct (updateComponent_body a vol flag comp w) as [[[f|b e] w1] t1]; [done|].
  by rewrite app_nil_r.
Qed.

(** What the loop over the declared containers guarantees. *)
Lemma updateComponent_loop_spec a vol comps :
  ∀ flag (w : W) step w' tr,
    updateComponent_loop a vol comps flag w = (step, w', tr) →
    Forall (λ ev, isExec ev = false) tr ∧
    (∀ b e, step = Return b e → is_Some e) ∧
    (∀ f, step = Continue f →
          (f = true ↔ flag = true ∧ Forall (λ ev, steady ev = true) tr)) ∧
    (∀ f, step = Continue f →
          listedAliases tr
          = map (λ comp, Container.Name (DevfileComponent.Container comp)) comps) ∧
    (∀ f, step = Continue f → Forall (λ ev, isConflict ev = false) tr) ∧
    (∀ ev, In ev tr → isConflict ev = true →
           (∃ tr0, tr = tr0 ++ [ev]) ∧
           step = Return true (Some (conflictError (aliasOf ev)))).
Proof.
  induction comps as [|comp rest IH]; intros flag w step w' tr H.
  - cbn in H. unfold ret in H. simplify_eq. split_and!; try done.
    intros f [= <-]. split; [by intros ->|by intros [-> _]].
  - rewrite updateComponent_loop_cons in H.
    destruct (updateComponent_body a vol flag comp w) as [[step1 w1] t1] eqn:Hb.
    apply updateComponent_body_spec in Hb as (Hex1 & Hal1 & Hret1 & Hfl1 & Hnc1 & Hc1).
    destruct step1 as [f1|b1 e1].
    + destruct (updateComponent_loop a vol rest f1 w1) as [[step2 w2] t2] eqn:Hl.
      apply IH in Hl as (Hex2 & Hret2 & Hfl2 & Hal2 & Hnc2 & Hc2).
      simplify_eq. split_and!.
      * by apply Forall_app_2.
      * exact Hret2.
      * intros f Hf. rewrite (Hfl2 f Hf), (Hfl1 f1 eq_refl), Forall_app. tauto.
      * intros f Hf. unfold listedAliases in *. rewrite omap_app, Hal1, (Hal2 f Hf). done.
      * intros f Hf. apply Forall_app_2; eauto.
      * intros ev [Hin|Hin]%in_app_or Hc.
        { specialize (Hnc1 f1 eq_refl). rewrite Forall_forall in Hnc1.
          apply list_elem_of_In, Hnc1 in Hin. congruence. }
        destruct (Hc2 ev Hin Hc) as [[tr0 ->] ->]. split; [|done].
        exists (t1 ++ tr0). by rewrite app_assoc.
    + simplify_eq. split_and!; try done.
      intros ev Hin Hc. destruct (Hc1 ev Hin Hc) as [-> [= -> ->]].
      split; [by exists []|].
      cbn in Hal1. destruct ev; simplify_eq/=. done.
Qed.

(** Every way [updateComponent] can go. *)
Lemma updateComponent_cases a (w : W) r w' tr :
  updateComponent a w = (r, w', tr) →
  let labels := GetProjectVolumeLabels (Adapter.ComponentName a) in
  let comps := GetSupportedComponents (Adapter.Devfile a) in
  (tr = [EGetVolumesByLabel labels] ∧ (r = (true, None) ∨ ∃ e, r = (true, Some e))) ∨
  (∃ v w1 e1 w2,
     GetVolumesByLabel labels w = (([v], None), w1) ∧
     StorageCreate (Adapter.uniqueStorage a) w1 = (e1, w2) ∧
     ((tr = [EGetVolumesByLabel labels; EStorageCreate (Adapter.uniqueStorage a)] ∧
       ∃ e, r = (true, Some e)) ∨
      (∃ step tl,
         updateComponent_loop a (Volume.Name v) comps true w2 = (step, w', tl) ∧
         tr = EGetVolumesByLabel labels :: EStorageCreate (Adapter.uniqueStorage a) :: tl ∧
         r = match step with
             | Return b e => (b, e)
             | Continue b => (b, e1)
             end))).
Proof.
  intros H labels comps.
  unfold updateComponent, updateComponent_projectVolume, bind, ret, call in H.
  fold labels comps in H.
  destruct (GetVolumesByLabel labels w) as [[vols e0] w1] eqn:Hv.
  destruct e0 as [e0|].
  { simplify_eq/=. left. eauto. }
  destruct vols as [|v [|v2 vols]].
  - simplify_eq/=. left. eauto.
  - destruct (StorageCreate _ w1) as [e1 w2] eqn:Hs.
    right. exists v, w1, e1, w2. split; [done|]. split; [done|].
    destruct (length comps =? 0)%nat.
    + simplify_eq/=. left. eauto.
    + destruct (updateComponent_loop a (Volume.Name v) comps true w2)
        as [[step w3] tl] eqn:Hl.
      right. exists step, tl.
      destruct step; simplify_eq/=; rewrite ?app_nil_r; done.
  - simplify_eq/=. left. eauto.
Qed.

(** C8. Whenever the engine lists two or more live containers for a
    (component, alias) pair during [updateComponent]:
    - the listing is the last call of the update, so nothing is removed,
      pulled or started once the pair is seen, and the iteration of that pair
      issues no other call;
    - the update returns the error of line 195 (with the flag [true]);
    - the update issues no exec call, and [Push] returns an error with the
      same trace and world, so no devfile command is executed afterwards. *)
Theorem updateComponent_fails_on_multiple_containers
    (a : Adapter.t) (w w' : W) (flag : bool) (err : option error)
    (tr : list Event) (alias : string) (found : list LiveContainer.t) :
  updateComponent a w = ((flag, err), w', tr) →
  In (EGetContainersByComponentAndAlias (Adapter.ComponentName a) alias found None) tr →
  (2 ≤ length found)%nat →
  err = Some (conflictError alias) ∧
  flag = true ∧
  (∃ tr0, tr = tr0 ++
     [EGetContainersByComponentAndAlias (Adapter.ComponentName a) alias found None]) ∧
  Forall (λ ev, isExec ev = false) tr ∧
  (∀ commandsMap show containers,
     ∃ e, Push a commandsMap show containers w = (Some e, w', tr)) ∧
  (∀ vol componentExists comp w0 w1,
     Container.Name (DevfileComponent.Container comp) = alias →
     GetContainersByComponentAndAlias (Adapter.ComponentName a) alias w0
       = ((found, None), w1) →
     updateComponent_body a vol componentExists comp w0
     = (Return true (Some (conflictError alias)), w1,
        [EGetContainersByComponentAndAlias (Adapter.ComponentName a) alias found None])).
Proof.
  intros Hu Hin Hlen.
  assert (Hconf : isConflict
            (EGetContainersByComponentAndAlias (Adapter.ComponentName a) alias found None)
          = true).
  { unfold isConflict. by apply Nat.leb_le. }
  assert (Hmain : err = Some (conflictError alias) ∧ flag = true ∧
            (∃ tr0, tr = tr0 ++
              [EGetContainersByComponentAndAlias (Adapter.ComponentName a) alias found None])
            ∧ Forall (λ ev, isExec ev = false) tr).
  { destruct (updateComponent_cases _ _ _ _ _ Hu)
      as [[-> _]|(v & w1 & e1 & w2 & Hv & Hs & [[-> _]|(step & tl & Hl & -> & Hr)])].
    - destruct Hin as [[=]|[]].
    - destruct Hin as [[=]|[[=]|[]]].
    - destruct Hin as [[=]|[[=]|Hin]].
      apply updateComponent_loop_spec in Hl as (Hex & _ & _ & _ & _ & Hc).
      destruct (Hc _ Hin Hconf) as [[tr0 ->] ->]. simplify_eq/=.
      split_and!; try done.
      + eexists (_ :: _ :: tr0). done.
      + repeat (constructor; [done|]). done. }
  destruct Hmain as (-> & -> & Hlast & Hex). split_and!; try done.
  - intros commandsMap show containers. unfold Push, bind, ret. rewrite Hu.
    cbn. rewrite app_nil_r. eauto.
  - intros vol componentExists comp w0 w1 <- Hlist.
    unfold updateComponent_body, bind, ret, call. rewrite Hlist. cbn.
    destruct found as [|c1 [|c2 found]]; cbn in Hlen; [lia|lia|done].
Qed.


(** C2: with two or more source volumes listed, both paths take the branch
    that wraps [err] with [errors.Wrapf]; [err] is [nil] there, so the
    wrapped error is [nil]. [createComponent] returns [nil], and
    [updateComponent] returns [true] with [nil]; neither issues a further
    call. *)
Theorem multiple_source_volumes_return_nil
    (a : Adapter.t) (w w1 : W) (v1 v2 : Volume.t) (vols : list Volume.t) :
  GetVolumesByLabel (GetProjectVolumeLabels (Adapter.ComponentName a)) w
    = ((v1 :: v2 :: vols, None), w1) →
  createComponent a w
    = (None, w1, [EGetVolumesByLabel (GetProjectVolumeLabels (Adapter.ComponentName a))]) ∧
  updateComponent a w
    = ((true, None), w1,
       [EGetVolumesByLabel (GetProjectVolumeLabels (Adapter.ComponentName a))]).
Proof.
  intros Hv. split.
  - unfold createComponent, createComponent_projectVolume, bind, ret, call.
    rewrite Hv. done.
  - unfold updateComponent, updateComponent_projectVolume, bind, ret, call.
    rewrite Hv. done.
Qed.

(** C3: in [updateComponent] the error of [stoAdapter.Create] is stored and
    not tested. The loop over the containers runs in full on the world the
    failed call left; if the loop falls through, the stored error is
    returned as it is, without context. *)
Theorem updateComponent_ignores_storage_error
    (a : Adapter.t) (w w1 w2 : W) (v : Volume.t) (e : error) :
  GetVolumesByLabel (GetProjectVolumeLabels (Adapter.ComponentName a)) w
    = (([v], None), w1) →
  StorageCreate (Adapter.uniqueStorage a) w1 = (Some e, w2) →
  GetSupportedComponents (Adapter.Devfile a) ≠ [] →
  updateComponent a w =
  let '(step, w3, tl) :=
    updateComponent_loop a (Volume.Name v)
      (GetSupportedComponents (Adapter.Devfile a)) true w2 in
  (match step with
   | Return b e' => (b, e')
   | Continue b => (b, Some e)
   end, w3,
   EGetVolumesByLabel (GetProjectVolumeLabels (Adapter.ComponentName a))
   :: EStorageCreate (Adapter.uniqueStorage a) :: tl).
Proof.
  intros Hv Hs Hne.
  unfold updateComponent, updateComponent_projectVolume, bind, ret, call.
  rewrite Hv. cbn. rewrite Hs.
  destruct (GetSupportedComponents (Adapter.Devfile a)) as [|comp comps]; [done|].
  cbn [length Nat.eqb].
  destruct (updateComponent_loop _ _ _ _ w2) as [[[f|b e'] w3] tl];
    cbn; by rewrite ?app_nil_r.
Qed.

(** C1: what the one-match branch does when the container needs updating.
    The existing container is removed and then [startComponent] creates and
    starts the replacement; unlike the zero-match branch, which goes through
    [pullAndStartContainer], no image is pulled. If the removal fails the
    function returns its error; if the start fails it returns that error
    with the flag [false]; otherwise the loop goes on with
    [componentExists = false], and a pass that then completes surfaces
    [false]. *)
Theorem updateComponent_recreates_without_pull
    (a : Adapter.t) (vol : string) (componentExists : bool)
    (comp : DevfileComponent.t) (w w1 w2 : W) (container : LiveContainer.t)
    (config : Config.t) (hostConfig : HostConfig.t) (mounts : list MountPoint.t)
    (portMap : option (gmap Z (list PortBinding.t)))
    (namePortMapping : option (gmap Z string)) :
  let name := Adapter.ComponentName a in
  let alias := Container.Name (DevfileComponent.Container comp) in
  let id := LiveContainer.ID container in
  let listed :=
    [EGetContainersByComponentAndAlias name alias [container] None;
     EGetContainerConfigHostConfigAndMounts id; ERemoveContainer id] in
  GetContainersByComponentAndAlias name alias w = (([container], None), w1) →
  GetContainerConfigHostConfigAndMounts id w1
    = ((config, hostConfig, mounts, None), w2) →
  getPortMap (Adapter.Context a)
    (Container.Endpoints (DevfileComponent.Container comp)) false w2
    = ((portMap, namePortMapping, None), w2, []) →
  DoesContainerNeedUpdating comp (labelPorts (orEmpty namePortMapping) config)
    hostConfig (dockerVolumeMountsOf a comp) mounts (orEmpty portMap) = true →
  updateComponent_body a vol componentExists comp w =
    (let '(err, w3) := RemoveContainer id w2 in
     match err with
     | Some _ =>
         (Return componentExists
            (errors.Wrapf err
               ("Unable to remove container " +:+ id +:+ " for component " +:+ alias)),
          w3, listed)
     | None =>
         let '(err, w4, ts) :=
           startComponent a (dockerVolumeMountsOf a comp) vol comp w3 in
         (match err with
          | Some _ =>
              Return false
                (errors.Wrapf err
                   ("Unable to start container for devfile component " +:+ alias))
          | None => Continue false
          end, w4, listed ++ ts)
     end) ∧
  (∀ step w' tr,
     updateComponent_body a vol componentExists comp w = (step, w', tr) →
     Forall (λ ev, isPull ev = false) tr ∧
     (step = Continue false ∨ ∃ b e, step = Return b (Some e))) ∧
  (∀ rest f w' tr,
     updateComponent_loop a vol (comp :: rest) componentExists w = (Continue f, w', tr) →
     f = false).
Proof.
  intros name alias id listed Hl Hi Hp Hn.
  assert (Heq : updateComponent_body a vol componentExists comp w =
    (let '(err, w3) := RemoveContainer id w2 in
     match err with
     | Some _ =>
         (Return componentExists
            (errors.Wrapf err
               ("Unable to remove container " +:+ id +:+ " for component " +:+ alias)),
          w3, listed)
     | None =>
         let '(err, w4, ts) :=
           startComponent a (dockerVolumeMountsOf a comp) vol comp w3 in
         (match err with
          | Some _ =>
              Return false
                (errors.Wrapf err
                   ("Unable to start container for devfile component " +:+ alias))
          | None => Continue false
          end, w4, listed ++ ts)
     end)).
  { unfold updateComponent_body, bind, ret, call. fold name alias.
    rewrite Hl. cbn [fst snd]. fold id. rewrite Hi, Hp, Hn.
    destruct (RemoveContainer id w2) as [[e|] w3]; [done|].
    destruct (startComponent _ _ _ _ w3) as [[[e|] w4] ts]; cbn; by rewrite ?app_nil_r. }
  assert (Hbody : ∀ step w' tr,
     updateComponent_body a vol componentExists comp w = (step, w', tr) →
     Forall (λ ev, isPull ev = false) tr ∧
     (step = Continue false ∨ ∃ b e, step = Return b (Some e))).
  { intros step w' tr. rewrite Heq.
    destruct (RemoveContainer id w2) as [[e|] w3].
    - intros [= <- <- <-]. split; [repeat constructor|]. right. cbn. eauto.
    - destruct (startComponent _ _ _ _ w3) as [[e2 w4] ts] eqn:Hs.
      apply startComponent_events in Hs.
      intros [= <- <- <-]. split.
      + repeat (constructor; [done|]).
        by apply (Forall_isStart_impl (λ ev, isPull ev = false)).
      + destruct e2; cbn; eauto. }
  split_and!; [exact Heq|exact Hbody|].
  intros rest f w' tr. rewrite updateComponent_loop_cons.
  destruct (updateComponent_body a vol componentExists comp w) as [[step w3] t1] eqn:Hb.
  destruct (Hbody _ _ _ eq_refl) as [_ [->|(b & e & ->)]]; [|done].
  destruct (updateComponent_loop a vol rest false w3) as [[step2 w4] t2] eqn:Hl2.
  intros [= -> <- <-].
  apply updateComponent_loop_spec in Hl2 as (_ & _ & Hfl & _).
  destruct f; [|done]. by destruct (Hfl true eq_refl) as [[[=] _] _].
Qed.

(** C7, amended. When the engine lists exactly one source volume, the
    volume step of both paths returns its name and creates nothing. From
    zero volumes the step of [createComponent] generates a name and creates
    the volume; once the engine lists that volume, a second resolution by
    either path returns the same name with no further create call. The step
    of [updateComponent] never creates: with zero volumes it returns an
    error. *)
Theorem projectVolume_get_or_create
    (a : Adapter.t) (componentExists : bool)
    (wa wa1 w0 w1 w2 w3 w4 : W) (va v v' : Volume.t) (name : string) :
  let labels := GetProjectVolumeLabels (Adapter.ComponentName a) in
  GetVolumesByLabel labels wa = (([va], None), wa1) →
  GetVolumesByLabel labels w0 = (([], None), w1) →
  GenerateVolName projectSourceVolumeName (Adapter.ComponentName a) w1
    = ((name, None), w2) →
  CreateVolume name labels w2 = ((v, None), w3) →
  GetVolumesByLabel labels w3 = (([v'], None), w4) →
  Volume.Name v' = name →
  createComponent_projectVolume a wa
    = (inr (Volume.Name va), wa1, [EGetVolumesByLabel labels]) ∧
  updateComponent_projectVolume a componentExists wa
    = (inr (Volume.Name va), wa1, [EGetVolumesByLabel labels]) ∧
  createComponent_projectVolume a w0
    = (inr name, w3, [EGetVolumesByLabel labels; ECreateVolume name labels]) ∧
  createComponent_projectVolume a w3 = (inr name, w4, [EGetVolumesByLabel labels]) ∧
  updateComponent_projectVolume a componentExists w3
    = (inr name, w4, [EGetVolumesByLabel labels]) ∧
  updateComponent_projectVolume a componentExists w0
    = (inl (componentExists,
            fmt.Errorf ("Unable to find source volume for component " +:+
                        Adapter.ComponentName a)),
       w1, [EGetVolumesByLabel labels]).
Proof.
  intros labels Ha H0 Hg Hc H3 Hn.
  unfold createComponent_projectVolume, updateComponent_projectVolume,
    bind, ret, call, silent.
  fold labels. rewrite Ha, H0, H3, Hg, Hc, Hn. done.
Qed.

End Reconciler.

(** ** The command pipeline *)

Section Pipeline.
Context {W : Type} {collab : Collaborators W} {helpers : Helpers}.

Lemma InitRunContainerSupervisord_loop_events component containers :
  ∀ err (w : W) e w' tr,
    InitRunContainerSupervisord_loop component containers err w = (e, w', tr) →
    Forall (λ ev, isSupervisorInit ev = true) tr.
Proof.
  induction containers as [|c rest IH]; intros err w e w' tr H.
  - cbn in H. unfold ret in H. simplify_eq. constructor.
  - cbn [InitRunContainerSupervisord_loop] in H.
    destruct (_ && _).
    + unfold bind, call in H.
      destruct (ExecuteCommand _ _ _ w) as [e1 w1].
      destruct (InitRunContainerSupervisord_loop component rest e1 w1)
        as [[e2 w2] t2] eqn:Hl.
      apply IH in Hl. simplify_eq/=. by constructor.
    + by apply IH in H.
Qed.

(** The supervisor initialization only runs commands in containers. *)
Lemma InitRunContainerSupervisord_events a component containers (w : W) e w' tr :
  InitRunContainerSupervisord a component containers w = (e, w', tr) →
  Forall (λ ev, isSupervisorInit ev = true) tr.
Proof. apply InitRunContainerSupervisord_loop_events. Qed.

(** C5. With no command at all the pipeline fails at once, with no call.
    With Init, Build and Run declared and [componentExists = false] it runs
    the Init command, then the Build command, then the supervisor
    initialization, then the Run command, each on the world the previous
    stage left, and it stops at the first stage that returns an error,
    returning that error. With [componentExists = true] the result is the
    one of the same pipeline without the Init command, and the only calls
    are the Build command and the run action. *)
Theorem execDevfile_runs_init_build_run_in_order
    (a : Adapter.t) (commandsMap : gmap DevfileCommandGroupType DevfileCommand.t)
    (show : bool) (containers : list LiveContainer.t) (w : W)
    (init build run : DevfileCommand.t) :
  commandsMap !! InitCommandGroupType = Some init →
  commandsMap !! BuildCommandGroupType = Some build →
  commandsMap !! RunCommandGroupType = Some run →
  let idOf command :=
    GetContainerIDForAlias containers (Exec.Component (DevfileCommand.Exec command)) in
  let action command :=
    ExecuteDevfileBuildAction (DevfileCommand.Exec command)
      (Exec.Id (DevfileCommand.Exec command)) (ComponentInfo.mk (idOf command)) show in
  let evInit := EExecuteDevfileBuildAction (DevfileCommand.Exec init) (idOf init) in
  let evBuild := EExecuteDevfileBuildAction (DevfileCommand.Exec build) (idOf build) in
  let evRun := EExecuteDevfileRunAction (DevfileCommand.Exec run) (idOf run) in
  (∀ componentExists,
     execDevfile a ∅ componentExists show containers w
     = (errors.New "error executing devfile commands - there should be at least 1 command",
        w, [])) ∧
  execDevfile a commandsMap false show containers w
  = (let '(e1, w1) := action init w in
     match e1 with
     | Some _ => (e1, w1, [evInit])
     | None =>
         let '(e2, w2) := action build w1 in
         match e2 with
         | Some _ => (e2, w2, [evInit; evBuild])
         | None =>
             let '(e3, w3, sup) :=
               InitRunContainerSupervisord a
                 (Exec.Component (DevfileCommand.Exec run)) containers w2 in
             match e3 with
             | Some _ => (e3, w3, [evInit; evBuild] ++ sup)
             | None =>
                 let '(e4, w4) :=
                   ExecuteDevfileRunAction (DevfileCommand.Exec run)
                     (Exec.Id (DevfileCommand.Exec run))
                     (ComponentInfo.mk (idOf run)) show w3 in
                 (e4, w4, [evInit; evBuild] ++ sup ++ [evRun])
             end
         end
     end) ∧
  (∀ e3 w2 w3 sup,
     InitRunContainerSupervisord a (Exec.Component (DevfileCommand.Exec run))
       containers w2 = (e3, w3, sup) →
     Forall (λ ev, isSupervisorInit ev = true) sup) ∧
  execDevfile a commandsMap true show containers w
  = execDevfile a (delete InitCommandGroupType commandsMap) true show containers w ∧
  (∀ e w' tr,
     execDevfile a commandsMap true show containers w = (e, w', tr) →
     Forall (λ ev, ev = evBuild ∨ isRunAction ev = true) tr).
Proof.
  intros Hi Hb Hr idOf action evInit evBuild evRun.
  assert (Hsize : (size commandsMap =? 0)%nat = false).
  { apply Nat.eqb_neq. intros Hz. apply map_size_empty_iff in Hz.
    rewrite Hz, lookup_empty in Hr. done. }
  assert (Hsize' : (size (delete InitCommandGroupType commandsMap) =? 0)%nat = false).
  { apply Nat.eqb_neq. intros Hz. apply map_size_empty_iff in Hz.
    assert (Hr' : delete InitCommandGroupType commandsMap !! RunCommandGroupType
                  = Some run) by (by rewrite lookup_delete_ne).
    rewrite Hz, lookup_empty in Hr'. done. }
  split_and!.
  - intros componentExists. unfold execDevfile. by rewrite map_size_empty.
  - unfold execDevfile, bind, ret, call. rewrite Hsize, Hi, Hb, Hr. cbn [negb andb].
    subst action. cbn beta.
    destruct (ExecuteDevfileBuildAction _ _ _ _ w) as [[e1|] w1]; [done|].
    destruct (ExecuteDevfileBuildAction _ _ _ _ w1) as [[e2|] w2]; [done|].
    destruct (InitRunContainerSupervisord _ _ _ w2) as [[[e3|] w3] sup];
      [cbn; by rewrite ?app_nil_r|].
    destruct (ExecuteDevfileRunAction _ _ _ _ w3) as [e4 w4]. done.
  - intros e3 w2 w3 sup. apply InitRunContainerSupervisord_events.
  - unfold execDevfile. rewrite Hsize, Hsize'. cbn [negb].
    rewrite !lookup_delete_ne by done. done.
  - intros e w' tr. unfold execDevfile, bind, ret, call.
    rewrite Hsize, Hb, Hr. cbn [negb andb].
    destruct (ExecuteDevfileBuildAction _ _ _ _ w) as [[e2|] w2].
    + intros [= <- <- <-]. apply Forall_cons_2; [by left|constructor].
    + destruct (negb (IsRestartRequired run)).
      * destruct (ExecuteDevfileRunActionWithoutRestart _ _ _ _ w2) as [e4 w4].
        intros [= <- <- <-].
        apply Forall_cons_2; [by left|]. apply Forall_cons_2; [by right|constructor].
      * destruct (ExecuteDevfileRunAction _ _ _ _ w2) as [e4 w4].
        intros [= <- <- <-].
        apply Forall_cons_2; [by left|]. apply Forall_cons_2; [by right|constructor].
Qed.






End Pipeline.

(** ** The code on concrete inputs *)

Section Concrete.
Import Mock Inputs.

(** Two source volumes: both paths report success. *)
Lemma multiple_source_volumes_return_nil_witness :
  createComponent current twoVolumes = (None, twoVolumes, [EGetVolumesByLabel labels]) ∧
  updateComponent current twoVolumes
  = ((true, None), twoVolumes, [EGetVolumesByLabel labels]).
Proof.
  apply (multiple_source_volumes_return_nil current twoVolumes twoVolumes v1 v2 []).
  vm_compute. reflexivity.
Defined.

(** The storage adapter fails: the container is pulled and started all the
    same, and the bare error comes back at the end. *)
Lemma updateComponent_ignores_storage_error_witness :
  ∃ w' tr,
    updateComponent current storageDown
    = ((false, Some (errorString "no space left on device")), w', tr) ∧
    existsb isPull tr = true ∧ existsb isStart tr = true.
Proof.
  assert (Hv : GetVolumesByLabel (GetProjectVolumeLabels (Adapter.ComponentName current))
                 storageDown = (([v1], None), storageDown)) by (vm_compute; reflexivity).
  assert (Hs : StorageCreate (Adapter.uniqueStorage current) storageDown
               = (Some (errorString "no space left on device"), storageDown))
    by (vm_compute; reflexivity).
  assert (Hne : GetSupportedComponents (Adapter.Devfile current) ≠ [])
    by (vm_compute; discriminate).
  eexists _, _.
  rewrite (updateComponent_ignores_storage_error current _ _ _ v1 _ Hv Hs Hne).
  vm_compute. split_and!; reflexivity.
Defined.

(** The live container has image ["img:1"], the devfile asks for ["img:2"]:
    the update removes the container and starts one of the new image, and no
    image is pulled. *)
Example updateComponent_changed_image :
  ∃ w' tr,
    updateComponent upgraded running = ((false, None), w', tr) ∧
    In (ERemoveContainer "c0") tr ∧
    (∃ cfg hc, In (EStartContainer cfg hc) tr ∧ Config.Image cfg = "img:2") ∧
    ¬ (∃ image, In (EPullImage image) tr).
Proof.
  destruct (updateComponent upgraded running) as [[r w'] tr] eqn:Hu.
  vm_compute in Hu. injection Hu as <- <- <-.
  eexists _, _. split; [reflexivity|]. split_and!.
  - cbn. tauto.
  - eexists _, _. split; [do 5 right; left; reflexivity|reflexivity].
  - intros [image Hin]. cbn in Hin. intuition discriminate.
Qed.

(** The iteration for the container of a changed image: list, inspect,
    remove, start. *)
Lemma updateComponent_recreates_without_pull_witness :
  ∃ w' cfg hc,
    updateComponent_body upgraded "v1" true (runtime "img:2") running
    = (Continue false, w',
       [EGetContainersByComponentAndAlias "nodejs" "runtime" listed None;
        EGetContainerConfigHostConfigAndMounts "c0"; ERemoveContainer "c0";
        EStartContainer cfg hc]).
Proof.
  destruct (updateComponent_recreates_without_pull upgraded "v1" true (runtime "img:2")
              running running running (live "c0" "img:1").1 (live "c0" "img:1").2
              HostConfig.zero [] (Some ∅) (Some ∅)) as (Heq & _ & _);
    [vm_compute; reflexivity..|].
  rewrite Heq. vm_compute. eexists _, _, _. reflexivity.
Defined.

(** C7, as stated, fails for the volume step of [updateComponent]: from
    zero volumes two successive resolutions return an error both times and
    issue no create call. *)
Lemma projectVolume_idempotent_counterexample :
  ¬ (let '(r1, w1, t1) := updateComponent_projectVolume current true fresh in
     let '(r2, w2, t2) := updateComponent_projectVolume current true w1 in
     (∃ name, r1 = inr name ∧ r2 = inr name) ∧
     length (filter (λ ev, isCreateVolume ev = true) (t1 ++ t2)) = 1%nat).
Proof.
  vm_compute. intros [(name & [=] & _) _].
Qed.

(** One volume is returned as it is; from none, the create path creates one
    and every later resolution returns it. *)
Lemma projectVolume_get_or_create_witness :
  createComponent_projectVolume current running
    = (inr "v1", running, [EGetVolumesByLabel labels]) ∧
  updateComponent_projectVolume current true running
    = (inr "v1", running, [EGetVolumesByLabel labels]) ∧
  createComponent_projectVolume current fresh
    = (inr generated, created,
       [EGetVolumesByLabel labels; ECreateVolume generated labels]) ∧
  createComponent_projectVolume current created
    = (inr generated, created, [EGetVolumesByLabel labels]) ∧
  updateComponent_projectVolume current true created
    = (inr generated, created, [EGetVolumesByLabel labels]).
Proof.
  destruct (projectVolume_get_or_create current true running running fresh fresh fresh
              created created v1 (Volume.mk generated labels)
              (Volume.mk generated labels) generated)
    as (H1 & H2 & H3 & H4 & H5 & _);
    [vm_compute; reflexivity..|].
  split_and!; assumption.
Defined.

(** Two containers for (nodejs, runtime): the update stops at the listing
    and [Push] runs no command. *)
Lemma updateComponent_fails_on_multiple_containers_witness :
  updateComponent current duplicated
  = ((true, Some (conflictError "runtime")), duplicated, conflictTrace) ∧
  ∀ commandsMap show containers,
    ∃ e, Push current commandsMap show containers duplicated
         = (Some e, duplicated, conflictTrace).
Proof.
  assert (Hu : updateComponent current duplicated
               = ((true, Some (conflictError "runtime")), duplicated, conflictTrace))
    by (vm_compute; reflexivity).
  split; [exact Hu|].
  destruct (updateComponent_fails_on_multiple_containers current duplicated duplicated
              true (Some (conflictError "runtime")) conflictTrace "runtime" bothListed Hu)
    as (_ & _ & _ & _ & Hpush & _).
  - cbn. tauto.
  - cbn. lia.
  - exact Hpush.
Defined.


(** The pipeline on the three commands: the full order, a failing Build,
    and a second push. *)
Lemma execDevfile_runs_init_build_run_in_order_witness :
  execDevfile current ∅ false true listed running
    = (errors.New "error executing devfile commands - there should be at least 1 command",
       running, []) ∧
  execDevfile current commands false true listed running
    = (None, running,
       [EExecuteDevfileBuildAction (DevfileCommand.Exec initCommand) "c0";
        EExecuteDevfileBuildAction (DevfileCommand.Exec buildCommand) "c0";
        EExecuteDevfileRunAction (DevfileCommand.Exec runCommand) "c0"]) ∧
  execDevfile current commands false true listed buildFails
    = (fmt.Errorf "command failed: devbuild", buildFails,
       [EExecuteDevfileBuildAction (DevfileCommand.Exec initCommand) "c0";
        EExecuteDevfileBuildAction (DevfileCommand.Exec buildCommand) "c0"]) ∧
  execDevfile current commands true true listed running
    = (None, running,
       [EExecuteDevfileBuildAction (DevfileCommand.Exec buildCommand) "c0";
        EExecuteDevfileRunActionWithoutRestart (DevfileCommand.Exec runCommand) "c0"]).
Proof.
  destruct (execDevfile_runs_init_build_run_in_order current commands true listed running
              initCommand buildCommand runCommand) as (Hempty & Hfalse & _ & Htrue & _);
    [vm_compute; reflexivity..|].
  destruct (execDevfile_runs_init_build_run_in_order current commands true listed buildFails
              initCommand buildCommand runCommand) as (_ & Hfails & _);
    [vm_compute; reflexivity..|].
  split_and!.
  - apply Hempty.
  - rewrite Hfalse. vm_compute. reflexivity.
  - rewrite Hfails. vm_compute. reflexivity.
  - rewrite Htrue. vm_compute. reflexivity.
Defined.

End Concrete.

(** ** The create path, the start of a container and the supervisor *)

Section PortMapperMore.
Context {W : Type} {collab : Collaborators W} {helpers : Helpers}.

Lemma mappable_dec endpoints url :
  {mappable endpoints url} + {¬ mappable endpoints url}.
Proof.
  unfold mappable.
  destruct (stale endpoints url); [right; by intros [? _]|].
  destruct (bound endpoints url).
  - destruct (validPort (EnvInfoURL.Port url)); [left|right]; [done|].
    intros [_ H]. by specialize (H eq_refl).
  - left. done.
Qed.

Lemma getPortMap_loop_success endpoints urlArr portmap names pm nm :
  getPortMap_loop endpoints urlArr portmap names = (Some pm, Some nm, None) →
  Forall (mappable endpoints) urlArr.
Proof.
  intros Hrun.
  destruct (Forall_Exists_dec (mappable endpoints) (λ url, ¬ mappable endpoints url)
              (mappable_dec endpoints) urlArr) as [H|H]; [done|].
  destruct (getPortMap_loop_fail endpoints urlArr H portmap names) as [e He].
  congruence.
Qed.

Lemma lastBound_Some endpoints urlArr p u :
  lastBound endpoints urlArr p = Some u →
  In u urlArr ∧ bound endpoints u = true ∧ EnvInfoURL.Port u = p.
Proof.
  unfold lastBound. intros Hl.
  apply last_Some_elem_of in Hl.
  apply list_elem_of_filter in Hl as [Hb Hin].
  apply andb_prop_elim in Hb as [Hb Hp].
  split_and!.
  - by apply list_elem_of_In.
  - by apply Is_true_eq_true.
  - apply Is_true_eq_true in Hp. lia.
Qed.

Lemma lastBound_is_Some endpoints urlArr url :
  In url urlArr → bound endpoints url = true →
  is_Some (lastBound endpoints urlArr (EnvInfoURL.Port url)).
Proof.
  intros Hin Hb. unfold lastBound.
  apply last_is_Some. intros Hnil.
  assert (Hel : url ∈ filter (λ u, bound endpoints u && (EnvInfoURL.Port u =? EnvInfoURL.Port url))
                   urlArr).
  { apply list_elem_of_filter. split; [|by apply list_elem_of_In].
    rewrite Hb, Z.eqb_refl. done. }
  rewrite Hnil in Hel. by apply not_elem_of_nil in Hel.
Qed.

(** X1. [getPortMap] issues no call and leaves the world as it is, whatever
    the working directory and the environment file answer; it returns either
    both maps with no error, or no map at all with an error. *)
Theorem getPortMap_all_or_nothing context endpoints show (w : W) :
  let '(r, w', tr) := getPortMap context endpoints show w in
  w' = w ∧ tr = [] ∧
  ((∃ pm nm, r = (Some pm, Some nm, None)) ∨ (∃ e, r = (None, None, Some e))).
Proof.
  unfold getPortMap, bind, peek, ret.
  destruct (decide (context = "")) as [->|Hc].
  - destruct (Getwd w) as [dir [e|]] eqn:Hwd; simpl.
    + split_and!; [done..|]. right. by eexists.
    + destruct (NewEnvSpecificInfo dir w) as [urlArr [e|]] eqn:Henv; simpl.
      * split_and!; [done..|]. right. by eexists.
      * split_and!; [done..|]. apply getPortMap_loop_result.
  - simpl. destruct (NewEnvSpecificInfo context w) as [urlArr [e|]] eqn:Henv; simpl.
    + split_and!; [done..|]. right. by eexists.
    + split_and!; [done..|]. apply getPortMap_loop_result.
Qed.

(** X2. When the loop of [getPortMap] succeeds, the two maps have the same
    keys; the port of every bound URL of the list is a key; and every key is
    a port in 0..65535 that the component declares, bound to the single
    binding (loopback address, exposed port) of a URL of the list with a
    positive exposed port, whose name is the entry of the name map. *)
Theorem getPortMap_binds_declared_valid_ports endpoints urlArr pm nm :
  getPortMap_loop endpoints urlArr ∅ ∅ = (Some pm, Some nm, None) →
  (∀ p, is_Some (pm !! p) ↔ is_Some (nm !! p)) ∧
  (∀ url, In url urlArr → bound endpoints url = true →
          is_Some (pm !! EnvInfoURL.Port url)) ∧
  (∀ p bindings,
     pm !! p = Some bindings →
     validPort p = true ∧ IsPortPresent endpoints p = true ∧
     ∃ url, In url urlArr ∧ EnvInfoURL.Port url = p ∧ 0 < EnvInfoURL.ExposedPort url ∧
            bindings = [PortBinding.mk LocalhostIP (Itoa (EnvInfoURL.ExposedPort url))] ∧
            nm !! p = Some (EnvInfoURL.Name url)).
Proof.
  intros Hrun.
  pose proof (getPortMap_loop_success _ _ _ _ _ _ Hrun) as Hall.
  destruct (getPortMap_loop_ok endpoints urlArr Hall ∅ ∅) as (pm' & nm' & Heq & Hlook).
  rewrite Hrun in Heq. simplify_eq.
  split_and!.
  - intros p. destruct (Hlook p) as [-> ->].
    destruct (lastBound endpoints urlArr p); simpl; rewrite ?lookup_empty;
      split; intros [? ?]; by eauto.
  - intros url Hin Hb. destruct (Hlook (EnvInfoURL.Port url)) as [-> _].
    destruct (lastBound_is_Some endpoints urlArr url Hin Hb) as [u ->]. by eexists.
  - intros p bindings Hp. destruct (Hlook p) as [Hpm Hnm].
    rewrite Hpm in Hp. rewrite Hnm.
    destruct (lastBound endpoints urlArr p) as [u|] eqn:Hl; [|by rewrite lookup_empty in Hp].
    simplify_eq.
    apply lastBound_Some in Hl as (Hin & Hb & Hport).
    rewrite Forall_forall in Hall.
    destruct (Hall u (proj2 (list_elem_of_In _ _) Hin)) as [_ Hv].
    pose proof Hb as Hb'. unfold bound in Hb'. apply andb_true_iff in Hb' as [Hpos Hpres].
    subst p. split_and!; [by apply Hv|done|].
    exists u. split_and!; [done|done|lia|done|done].
Qed.

End PortMapperMore.

Section HostConfigMore.
Context {W : Type} {collab : Collaborators W} {helpers : Helpers}.

Lemma to_int_nonnil z :
  Z.to_int z ≠ Decimal.Pos Decimal.Nil ∧ Z.to_int z ≠ Decimal.Neg Decimal.Nil.
Proof.
  destruct z as [|p|p]; simpl; split; try discriminate;
    intros [= H]; by apply DecimalPos.Unsigned.to_uint_nonnil in H.
Qed.

(** [strconv.Itoa] gives different strings for different numbers. *)
Lemma Itoa_inj p q : Itoa p = Itoa q → p = q.
Proof.
  unfold Itoa. intros H.
  assert (Hs : Some (Z.to_int p) = Some (Z.to_int q)).
  { rewrite <- (NilZero.isi (Z.to_int p)), <- (NilZero.isi (Z.to_int q));
      [by rewrite H|apply to_int_nonnil..]. }
  injection Hs as Hi.
  rewrite <- (DecimalZ.of_to p), <- (DecimalZ.of_to q). by rewrite Hi.
Qed.

Lemma getPortMap_loop_unbound endpoints urlArr :
  Forall (λ url, bound endpoints url = false ∧ stale endpoints url = false) urlArr →
  ∀ portmap names,
    getPortMap_loop endpoints urlArr portmap names = (Some portmap, Some names, None).
Proof.
  induction 1 as [|url rest [Hb Hs] _ IH]; intros portmap names; [done|].
  rewrite getPortMap_loop_cons, Hb, Hs. apply IH.
Qed.

(** X3. When the environment file is read and none of its URLs is bound
    (and none is stale), [generateAndGetHostConfig] returns the zero host
    configuration and an empty name map, without using
    [GenerateHostConfig]; this is the case of a component that declares no
    endpoint, whatever the URLs are. When a URL cannot be mapped it returns
    the zero host configuration, an empty name map and an error. It issues no
    call in either case. *)
Theorem generateAndGetHostConfig_without_bound_url
    (a : Adapter.t) (endpoints : list Endpoint.t) (w : W) (dir : string)
    (urlArr : list EnvInfoURL.t) :
  (if decide (Adapter.Context a = "") then Getwd w = (dir, None)
   else dir = Adapter.Context a) →
  NewEnvSpecificInfo dir w = (urlArr, None) →
  (Forall (λ url, bound endpoints url = false ∧ stale endpoints url = false) urlArr →
   generateAndGetHostConfig a endpoints w = ((HostConfig.zero, ∅, None), w, [])) ∧
  (endpoints = [] →
   generateAndGetHostConfig a endpoints w = ((HostConfig.zero, ∅, None), w, [])) ∧
  (Exists (λ url, ¬ mappable endpoints url) urlArr →
   ∃ e, generateAndGetHostConfig a endpoints w = ((HostConfig.zero, ∅, Some e), w, [])).
Proof.
  intros Hdir Henv.
  pose proof (getPortMap_on_urls (Adapter.Context a) endpoints true w dir urlArr Hdir Henv)
    as Hpm.
  assert (Hzero : Forall (λ url, bound endpoints url = false ∧ stale endpoints url = false)
                    urlArr →
                  generateAndGetHostConfig a endpoints w
                  = ((HostConfig.zero, ∅, None), w, [])).
  { intros Hall. unfold generateAndGetHostConfig, bind. rewrite Hpm.
    rewrite (getPortMap_loop_unbound _ _ Hall). reflexivity. }
  split_and!; [done| |].
  - intros ->. apply Hzero. apply Forall_forall. intros url _.
    unfold bound, stale. simpl. by rewrite !andb_false_r.
  - intros Hex. destruct (getPortMap_loop_fail endpoints urlArr Hex ∅ ∅) as [e He].
    exists e. unfold generateAndGetHostConfig, bind. rewrite Hpm, He. reflexivity.
Qed.

(** X4. The loop that writes the port labels (lines 163-165 and 253-255):
    every port of the name map is a label whose key is the port number as a
    string and whose value is the URL name; every label whose key is not the
    string of a mapped port is left as it was; nothing else of the
    configuration changes. *)
Theorem labelPorts_labels (namePortMapping : gmap Z string) (cfg : Config.t) :
  (∀ port urlName,
     namePortMapping !! port = Some urlName →
     Config.Labels (labelPorts namePortMapping cfg) !! dockernat.Port_Port port
     = Some urlName) ∧
  (∀ key,
     (∀ port, is_Some (namePortMapping !! port) → dockernat.Port_Port port ≠ key) →
     Config.Labels (labelPorts namePortMapping cfg) !! key = Config.Labels cfg !! key) ∧
  Config.Image (labelPorts namePortMapping cfg) = Config.Image cfg ∧
  Config.Entrypoint (labelPorts namePortMapping cfg) = Config.Entrypoint cfg ∧
  Config.Cmd (labelPorts namePortMapping cfg) = Config.Cmd cfg ∧
  Config.Env (labelPorts namePortMapping cfg) = Config.Env cfg ∧
  Config.ExposedPorts (labelPorts namePortMapping cfg) = Config.ExposedPorts cfg.
Proof.
  unfold labelPorts. simpl.
  split_and!; try reflexivity.
  - apply (map_fold_weak_ind
             (λ labels m, ∀ port urlName, m !! port = Some urlName →
                                         labels !! dockernat.Port_Port port = Some urlName)).
    + intros port urlName H. by rewrite lookup_empty in H.
    + intros i x m r Hi IH port urlName Hl.
      destruct (decide (i = port)) as [->|Hne].
      * rewrite lookup_insert_eq in Hl. simplify_eq. by rewrite lookup_insert_eq.
      * rewrite lookup_insert_ne in Hl by done.
        rewrite lookup_insert_ne; [by apply IH|].
        unfold dockernat.Port_Port. intros Heq. by apply Itoa_inj in Heq.
  - apply (map_fold_weak_ind
             (λ labels m, ∀ key,
                (∀ port, is_Some (m !! port) → dockernat.Port_Port port ≠ key) →
                labels !! key = Config.Labels cfg !! key)).
    + done.
    + intros i x m r Hi IH key Hk.
      rewrite lookup_insert_ne.
      * apply IH. intros port Hp. apply Hk.
        destruct (decide (i = port)) as [->|Hne].
        -- rewrite lookup_insert_eq. by eexists.
        -- by rewrite lookup_insert_ne.
      * apply Hk. rewrite lookup_insert_eq. by eexists.
Qed.

End HostConfigMore.

Section StartMore.
Context {W : Type} {collab : Collaborators W} {helpers : Helpers}.

Lemma prefix_refl s : String.prefix s s = true.
Proof.
  induction s as [|c s IH]; [done|]. simpl.
  by destruct (Ascii.ascii_dec c c).
Qed.

Lemma Contains_unfold s sub :
  Contains s sub =
  String.prefix sub s || match s with
                         | EmptyString => false
                         | String _ s' => Contains s' sub
                         end.
Proof. by destruct s. Qed.

Lemma Contains_refl s : Contains s s = true.
Proof. by rewrite Contains_unfold, prefix_refl. Qed.

Lemma Contains_app_l pre s sub : Contains s sub = true → Contains (pre +:+ s) sub = true.
Proof.
  intros H. induction pre as [|c pre IH]; [done|].
  change (String c pre +:+ s) with (String c (pre +:+ s)).
  rewrite Contains_unfold, IH. apply orb_true_r.
Qed.

Lemma Contains_suffix pre s : Contains (pre +:+ s) s = true.
Proof. apply Contains_app_l, Contains_refl. Qed.

(** The port labels of [labelPorts]. *)
Lemma labelPorts_port (namePortMapping : gmap Z string) (cfg : Config.t) port urlName :
  namePortMapping !! port = Some urlName →
  Config.Labels (labelPorts namePortMapping cfg) !! dockernat.Port_Port port = Some urlName.
Proof.
  unfold labelPorts. simpl. revert port urlName.
  apply (map_fold_weak_ind
           (λ labels m, ∀ port urlName, m !! port = Some urlName →
                                       labels !! dockernat.Port_Port port = Some urlName)).
  - intros port urlName H. by rewrite lookup_empty in H.
  - intros i x m r Hi IH port urlName Hl.
    destruct (decide (i = port)) as [->|Hne].
    + rewrite lookup_insert_eq in Hl. simplify_eq. by rewrite lookup_insert_eq.
    + rewrite lookup_insert_ne in Hl by done.
      rewrite lookup_insert_ne; [by apply IH|].
      unfold dockernat.Port_Port. intros Heq. by apply Itoa_inj in Heq.
Qed.

(** X5. [startComponent] builds the port map and fetches the run command
    before it calls the engine. If the port map fails, or else if the run
    command is missing, it returns that error as it is, issues no call and
    leaves the world unchanged. Otherwise it issues exactly one call, the
    start of the container, returns its result, and the container
    configuration carries one label per mapped port. *)
Theorem startComponent_checks_before_starting
    (a : Adapter.t) (mounts : list Mount.t) (projectVolumeName : string)
    (comp : DevfileComponent.t) (w : W)
    (portMap : option (gmap Z (list PortBinding.t)))
    (namePortMapping : option (gmap Z string)) (portErr : option error)
    (runCommand : DevfileCommand.t) (runErr : option error) :
  getPortMap (Adapter.Context a) (Container.Endpoints (DevfileComponent.Container comp))
    true w = ((portMap, namePortMapping, portErr), w, []) →
  GetRunCommand (Adapter.Devfile a) (Adapter.devfileRunCmd a) = (runCommand, runErr) →
  (is_Some portErr →
   startComponent a mounts projectVolumeName comp w = (portErr, w, [])) ∧
  (portErr = None → is_Some runErr →
   startComponent a mounts projectVolumeName comp w = (runErr, w, [])) ∧
  (portErr = None → runErr = None →
   ∃ cfg hc,
     startComponent a mounts projectVolumeName comp w
     = (let '(err, w') := StartContainer cfg hc w in (err, w', [EStartContainer cfg hc])) ∧
     ∀ port urlName,
       orEmpty namePortMapping !! port = Some urlName →
       Config.Labels cfg !! dockernat.Port_Port port = Some urlName).
Proof.
  intros Hpm Hrun.
  unfold startComponent, generateAndGetHostConfig, bind, ret, call.
  rewrite Hpm, Hrun. split_and!.
  - intros [e ->]. reflexivity.
  - intros -> [e ->]. reflexivity.
  - intros -> ->. simpl.
    repeat match goal with
           | |- context [UpdateComponentWithSupervisord ?c ?r ?v ?h] =>
               destruct (UpdateComponentWithSupervisord c r v h) as [comp1 hc1]
           | |- context [if ?b then _ else _] => destruct b
           end;
      simpl;
      match goal with
      | |- context [StartContainer ?cfg ?hc w] =>
          exists cfg, hc; split;
          [by destruct (StartContainer cfg hc w)
          |intros port urlName Hl; by apply labelPorts_port]
      end.
Qed.

Lemma pullAndStartContainer_cases a mounts vol comp (w : W) err w' tr :
  pullAndStartContainer a mounts vol comp w = (err, w', tr) →
  ∃ e1 w1,
    PullImage (imageOf comp) w = (e1, w1) ∧
    ((∃ e, e1 = Some e ∧ w' = w1 ∧ tr = [EPullImage (imageOf comp)] ∧
           err = Some (withMessage e ("Unable to pull " +:+ imageOf comp +:+ " image"))) ∨
     (e1 = None ∧
      ∃ e2 ts,
        startComponent a mounts vol comp w1 = (e2, w', ts) ∧
        tr = EPullImage (imageOf comp) :: ts ∧
        err = errors.Wrapf e2
                ("Unable to start container for devfile component " +:+ nameOf comp))).
Proof.
  unfold pullAndStartContainer, bind, ret, call, imageOf, nameOf. intros H.
  destruct (PullImage _ w) as [e1 w1]. exists e1, w1. split; [done|].
  destruct e1 as [e|].
  - left. simplify_eq/=. by exists e.
  - right. split; [done|].
    destruct (startComponent _ _ _ _ w1) as [[e2 w2] ts] eqn:Hs.
    exists e2, ts.
    destruct e2; simplify_eq/=; split_and!; try done; by rewrite ?app_nil_r.
Qed.

(** X6. [pullAndStartContainer] first pulls the image of the component.
    The trace is the pull alone, with an error, or the pull followed by one
    start of a container on the world the pull left, and then the result is
    [nil] exactly when the start succeeded. A failed pull starts nothing and
    its error is returned with the image in the message. Every error the
    function returns is wrapped. *)
Theorem pullAndStartContainer_pulls_then_starts
    (a : Adapter.t) (mounts : list Mount.t) (projectVolumeName : string)
    (comp : DevfileComponent.t) (w w' : W) (err : option error) (tr : list Event) :
  pullAndStartContainer a mounts projectVolumeName comp w = (err, w', tr) →
  let pull := EPullImage (imageOf comp) in
  ((tr = [pull] ∧ is_Some err) ∨
   (∃ cfg hc w1 e2,
      tr = [pull; EStartContainer cfg hc] ∧
      PullImage (imageOf comp) w = (None, w1) ∧
      StartContainer cfg hc w1 = (e2, w') ∧
      (err = None ↔ e2 = None))) ∧
  (∀ e w1, PullImage (imageOf comp) w = (Some e, w1) →
           tr = [pull] ∧ w' = w1 ∧
           err = Some (withMessage e ("Unable to pull " +:+ imageOf comp +:+ " image"))) ∧
  (∀ e, err = Some e → ∃ c msg, e = withMessage c msg).
Proof.
  intros H pull.
  apply pullAndStartContainer_cases in H as (e1 & w1 & Hpull & Hcases).
  destruct Hcases as [(e & -> & -> & -> & ->)|(-> & e2 & ts & Hs & -> & ->)].
  - split_and!.
    + left. split; [done|by eexists].
    + intros e' w1' Heq. rewrite Hpull in Heq. by simplify_eq.
    + intros e' [= <-]. by eexists _, _.
  - split_and!.
    + apply startComponent_trace in Hs as [(-> & -> & [e ->])|(cfg & hc & -> & Hst)].
      * left. split; [done|]. simpl. by eexists.
      * right. exists cfg, hc, w1, e2. split_and!; [done..|].
        destruct e2; simpl; split; intros; by simplify_eq.
    + intros e' w1' Heq. rewrite Hpull in Heq. by simplify_eq.
    + intros e'. destruct e2; simpl; intros [= <-]. by eexists _, _.
Qed.

End StartMore.

Section CreateMore.
Context {W : Type} {collab : Collaborators W} {helpers : Helpers}.

Lemma createComponent_loop_cons a vol comp rest (w : W) :
  createComponent_loop a vol (comp :: rest) w =
  let '(err, w1, t1) := pullAndStartContainer a (dockerVolumeMountsOf a comp) vol comp w in
  match err with
  | Some _ =>
      (errors.Wrapf err
         ("unable to pull and start container " +:+ nameOf comp +:+
          " for component " +:+ Adapter.ComponentName a), w1, t1)
  | None =>
      let '(e2, w2, t2) := createComponent_loop a vol rest w1 in
      (e2, w2, t1 ++ t2)
  end.
Proof.
  simpl. unfold bind, ret.
  destruct (pullAndStartContainer _ _ _ _ w) as [[[e|] w1] t1]; [|done].
  by rewrite app_nil_r.
Qed.

(** The loop of [createComponent]: the containers are created in the order
    of declaration, and the loop stops at the first one that fails. *)
Lemma createComponent_loop_cases a vol comps :
  ∀ (w : W) err w' tr,
    createComponent_loop a vol comps w = (err, w', tr) →
    ∃ starts,
      (err = None ∧ length starts = length comps ∧ tr = pulledAndStarted comps starts) ∨
      (∃ comp ts c,
         comps !! length starts = Some comp ∧
         err = Some (withMessage c
                       ("unable to pull and start container " +:+ nameOf comp +:+
                        " for component " +:+ Adapter.ComponentName a)) ∧
         tr = pulledAndStarted (take (length starts) comps) starts
              ++ EPullImage (imageOf comp) :: ts ∧
         (ts = [] ∨ ∃ cfg hc, ts = [EStartContainer cfg hc])).
Proof.
  induction comps as [|comp rest IH]; intros w err w' tr H.
  - simpl in H. unfold ret in H. simplify_eq. exists []. by left.
  - rewrite createComponent_loop_cons in H.
    destruct (pullAndStartContainer _ _ _ _ w) as [[e1 w1] t1] eqn:Hp.
    apply pullAndStartContainer_cases in Hp
      as (ep & wp & Hpull & [(e & -> & -> & -> & ->)|(-> & e2 & ts & Hs & -> & ->)]).
    + simpl in H. simplify_eq. exists []. right.
      eexists comp, [], _. split_and!; [done|done|done|by left].
    + apply startComponent_trace in Hs as [(-> & -> & [e ->])|(cfg & hc & -> & Hst)].
      * simpl in H. simplify_eq. exists []. right.
        eexists comp, [], _. split_and!; [done|done|done|by left].
      * destruct e2 as [e|]; simpl in H.
        -- simplify_eq. exists []. right.
           eexists comp, [_], _. split_and!; [done|done|done|right; by eexists _, _].
        -- destruct (createComponent_loop a vol rest w1) as [[e3 w3] t3] eqn:Hl.
           simplify_eq.
           apply IH in Hl as [starts [(-> & Hlen & ->)|(c' & ts & c & Hc & -> & -> & Hts)]].
           ++ exists ((cfg, hc) :: starts). left. split_and!; [done|by simpl; f_equal|done].
           ++ exists ((cfg, hc) :: starts). right.
              exists c', ts, c. split_and!; [done|done|done|done].
Qed.

Lemma createComponent_projectVolume_cases a (w : W) r w1 tv :
  createComponent_projectVolume a w = (r, w1, tv) →
  let labels := GetProjectVolumeLabels (Adapter.ComponentName a) in
  (tv = [EGetVolumesByLabel labels] ∨
   ∃ name, tv = [EGetVolumesByLabel labels; ECreateVolume name labels]) ∧
  match r with
  | inl None =>
      tv = [EGetVolumesByLabel labels] ∧
      ∃ v1 v2 vols, GetVolumesByLabel labels w = ((v1 :: v2 :: vols, None), w1)
  | inl (Some e) =>
      ∃ c msg, e = withMessage c msg ∧ Contains msg (Adapter.ComponentName a) = true
  | inr _ => True
  end.
Proof.
  intros H labels.
  unfold createComponent_projectVolume, bind, ret, call, silent in H.
  fold labels in H.
  destruct (GetVolumesByLabel labels w) as [[vols [e|]] w0] eqn:Hv.
  - simplify_eq/=. split; [by left|]. eexists _, _. split; [done|]. apply Contains_suffix.
  - destruct vols as [|v1 [|v2 vols]].
    + destruct (GenerateVolName _ _ w0) as [[name [e|]] w2].
      * simplify_eq/=. split; [by left|]. eexists _, _. split; [done|].
        apply Contains_suffix.
      * destruct (CreateVolume name labels w2) as [[v [e|]] w3];
          simplify_eq/=; (split; [right; by eexists|]); [|done].
        eexists _, _. split; [done|]. apply Contains_suffix.
    + simplify_eq/=. split; [by left|done].
    + simplify_eq/=. split; [by left|]. split; [done|]. by eexists _, _, _.
Qed.

(** Every way [createComponent] can go. *)
Lemma createComponent_cases a (w : W) err w' tr :
  createComponent a w = (err, w', tr) →
  let labels := GetProjectVolumeLabels (Adapter.ComponentName a) in
  let comps := GetSupportedComponents (Adapter.Devfile a) in
  let storage := EStorageCreate (Adapter.uniqueStorage a) in
  ∃ tv,
    (tv = [EGetVolumesByLabel labels] ∨
     ∃ name, tv = [EGetVolumesByLabel labels; ECreateVolume name labels]) ∧
    ((err = None ∧ tr = tv ∧ tv = [EGetVolumesByLabel labels] ∧
      ∃ v1 v2 vols, GetVolumesByLabel labels w = ((v1 :: v2 :: vols, None), w')) ∨
     (tr = tv ∧
      ∃ c msg, err = Some (withMessage c msg) ∧
               Contains msg (Adapter.ComponentName a) = true) ∨
     (tr = tv ∧ comps = [] ∧
      err = Some (errorString "No valid components found in the devfile")) ∨
     (tr = tv ++ [storage] ∧ comps ≠ [] ∧
      ∃ c msg, err = Some (withMessage c msg) ∧
               Contains msg (Adapter.ComponentName a) = true) ∨
     (comps ≠ [] ∧
      ∃ vol w2 tl,
        createComponent_loop a vol comps w2 = (err, w', tl) ∧
        tr = tv ++ storage :: tl)).
Proof.
  intros H labels comps storage.
  unfold createComponent, bind, ret, call in H.
  fold comps in H.
  destruct (createComponent_projectVolume a w) as [[r w1] tv] eqn:Hv.
  apply createComponent_projectVolume_cases in Hv as [Htv Hr]. fold labels in Htv, Hr.
  exists tv. split; [done|].
  destruct r as [[e|]|vol].
  - destruct Hr as (c & msg & -> & Hc). simplify_eq/=. rewrite app_nil_r.
    right; left. split; [done|]. by eexists _, _.
  - destruct Hr as (-> & Hvols). simplify_eq/=. left. done.
  - destruct (length comps =? 0)%nat eqn:Hlen.
    + simplify_eq/=. rewrite app_nil_r. right; right; left.
      apply Nat.eqb_eq in Hlen. by destruct comps.
    + apply Nat.eqb_neq in Hlen.
      assert (Hne : comps ≠ []) by (by intros Heq; rewrite Heq in Hlen).
      destruct (StorageCreate _ w1) as [[e|] w2].
      * simplify_eq/=. do 3 right; left.
        split_and!; [done|done|]. eexists _, _. split; [done|]. apply Contains_suffix.
      * destruct (createComponent_loop a vol comps w2) as [[e3 w3] tl] eqn:Hl.
        simplify_eq/=. do 4 right. split; [done|]. by eexists _, _, _.
Qed.

End CreateMore.

Section CreateTheorems.
Context {W : Type} {collab : Collaborators W} {helpers : Helpers}.







(** X7. When [createComponent] returns no error then either the engine
    listed two or more source volumes and nothing else was called, or the
    devfile has components and the calls are, in this order: the listing of
    the source volume, its creation if there was none, the storage adapter,
    and then for each component in the order of the devfile the pull of its
    image followed by the start of its container. *)
Theorem createComponent_success
    (a : Adapter.t) (w w' : W) (tr : list Event) :
  createComponent a w = (None, w', tr) →
  let labels := GetProjectVolumeLabels (Adapter.ComponentName a) in
  let comps := GetSupportedComponents (Adapter.Devfile a) in
  (tr = [EGetVolumesByLabel labels] ∧
   ∃ v1 v2 vols, GetVolumesByLabel labels w = ((v1 :: v2 :: vols, None), w')) ∨
  (comps ≠ [] ∧
   ∃ tv starts,
     (tv = [EGetVolumesByLabel labels] ∨
      ∃ name, tv = [EGetVolumesByLabel labels; ECreateVolume name labels]) ∧
     length starts = length comps ∧
     tr = tv ++ EStorageCreate (Adapter.uniqueStorage a) :: pulledAndStarted comps starts).
Proof.
  intros H labels comps.
  apply createComponent_cases in H as (tv & Htv & Hcases).
  fold labels comps in Htv, Hcases.
  destruct Hcases as [(_ & -> & -> & Hv)|[(_ & c & msg & ? & _)|[(_ & _ & ?)|
    [(_ & _ & c & msg & ? & _)|(Hne & vol & w2 & tl & Hl & ->)]]]]; try done.
  - by left.
  - right. split; [done|].
    apply createComponent_loop_cases in Hl
      as [starts [(_ & Hlen & ->)|(c' & ts & c & _ & ? & _)]]; [|done].
    by exists tv, starts.
Qed.


End CreateTheorems.

Section UpdateMore.
Context {W : Type} {collab : Collaborators W} {helpers : Helpers}.

(** X9. A devfile without supported component is detected after the first
    side effects. With no source volume [createComponent] creates the volume
    and then fails; with one source volume [updateComponent] calls the
    storage adapter and then fails, whatever the adapter returned. Neither
    lists, pulls or starts a container. *)
Theorem no_component_is_detected_late
    (a : Adapter.t) (wc wc1 wc2 wc3 wu wu1 wu2 : W) (name : string)
    (created found : Volume.t) (storageErr : option error) :
  let labels := GetProjectVolumeLabels (Adapter.ComponentName a) in
  let noComponent := errorString "No valid components found in the devfile" in
  GetSupportedComponents (Adapter.Devfile a) = [] →
  GetVolumesByLabel labels wc = (([], None), wc1) →
  GenerateVolName projectSourceVolumeName (Adapter.ComponentName a) wc1
    = ((name, None), wc2) →
  CreateVolume name labels wc2 = ((created, None), wc3) →
  GetVolumesByLabel labels wu = (([found], None), wu1) →
  StorageCreate (Adapter.uniqueStorage a) wu1 = (storageErr, wu2) →
  createComponent a wc
  = (Some noComponent, wc3, [EGetVolumesByLabel labels; ECreateVolume name labels]) ∧
  updateComponent a wu
  = ((true, Some noComponent), wu2,
     [EGetVolumesByLabel labels; EStorageCreate (Adapter.uniqueStorage a)]).
Proof.
  intros labels noComponent Hnil Hc1 Hc2 Hc3 Hu1 Hu2. split.
  - unfold createComponent, createComponent_projectVolume, bind, ret, call, silent.
    fold labels. rewrite Hc1, Hc2, Hc3, Hnil. reflexivity.
  - unfold updateComponent, updateComponent_projectVolume, bind, ret, call.
    fold labels. rewrite Hu1. simpl. rewrite Hu2, Hnil. reflexivity.
Qed.

(** X10. In the one-match branch of [updateComponent], when the port map
    cannot be built from the environment file (a URL is stale or has an
    invalid port), the iteration returns a wrapped error with the flag it
    was entered with, after the listing and the inspection: the running
    container is neither removed nor replaced. *)
Theorem updateComponent_keeps_container_without_port_map
    (a : Adapter.t) (vol : string) (componentExists : bool)
    (comp : DevfileComponent.t) (w w1 w2 : W) (container : LiveContainer.t)
    (config : Config.t) (hostConfig : HostConfig.t) (mounts : list MountPoint.t)
    (dir : string) (urlArr : list EnvInfoURL.t) :
  let name := Adapter.ComponentName a in
  let id := LiveContainer.ID container in
  let endpoints := Container.Endpoints (DevfileComponent.Container comp) in
  GetContainersByComponentAndAlias name (nameOf comp) w = (([container], None), w1) →
  GetContainerConfigHostConfigAndMounts id w1 = ((config, hostConfig, mounts, None), w2) →
  (if decide (Adapter.Context a = "") then Getwd w2 = (dir, None)
   else dir = Adapter.Context a) →
  NewEnvSpecificInfo dir w2 = (urlArr, None) →
  Exists (λ url, ¬ mappable endpoints url) urlArr →
  ∃ e,
    updateComponent_body a vol componentExists comp w
    = (Return componentExists
         (Some (withMessage e
                  ("unable to get the port map from env.yaml file for component "
                   +:+ name))),
       w2,
       [EGetContainersByComponentAndAlias name (nameOf comp) [container] None;
        EGetContainerConfigHostConfigAndMounts id]).
Proof.
  intros name id endpoints Hl Hi Hdir Henv Hex.
  pose proof (getPortMap_on_urls (Adapter.Context a) endpoints false w2 dir urlArr Hdir Henv)
    as Hpm.
  destruct (getPortMap_loop_fail endpoints urlArr Hex ∅ ∅) as [e He].
  exists e.
  unfold updateComponent_body, bind, ret, call. unfold nameOf in Hl. fold name.
  rewrite Hl. simpl. fold id. rewrite Hi. fold endpoints. rewrite Hpm, He. reflexivity.
Qed.

Lemma listedAliases_app t1 t2 :
  listedAliases (t1 ++ t2) = listedAliases t1 ++ listedAliases t2.
Proof. apply omap_app. Qed.

(** X11. The loop of [updateComponent] lists the containers in the order of
    the devfile, one listing per component. When it falls through every
    component was listed; when it returns early, the components after the
    one that failed are not listed. *)
Theorem updateComponent_loop_lists_in_order
    (a : Adapter.t) (vol : string) (comps : list DevfileComponent.t)
    (componentExists : bool) (w w' : W) (step : LoopStep) (tr : list Event) :
  updateComponent_loop a vol comps componentExists w = (step, w', tr) →
  ∃ n, (n ≤ length comps)%nat ∧
       listedAliases tr = map nameOf (take n comps) ∧
       match step with
       | Continue _ => n = length comps
       | Return _ _ => (0 < n)%nat
       end.
Proof.
  revert componentExists w w' step tr.
  induction comps as [|comp rest IH]; intros flag w w' step tr H.
  - simpl in H. unfold ret in H. simplify_eq. by exists 0%nat.
  - rewrite updateComponent_loop_cons in H.
    destruct (updateComponent_body a vol flag comp w) as [[s1 w1] t1] eqn:Hb.
    apply updateComponent_body_spec in Hb as (_ & Hlist & _).
    destruct s1 as [f|b e].
    + destruct (updateComponent_loop a vol rest f w1) as [[s2 w2] t2] eqn:Hl.
      simplify_eq. apply IH in Hl as (n & Hn & Hl2 & Hs).
      exists (S n). split_and!; [simpl; lia| |].
      * rewrite listedAliases_app, Hlist, Hl2. done.
      * destruct step; simpl; lia.
    + simplify_eq. exists 1%nat. split_and!; [simpl; lia| |lia].
      rewrite Hlist. by destruct rest.
Qed.

End UpdateMore.


Section UpdateSafety.
Context {W : Type} {collab : Collaborators W} {helpers : Helpers}.







End UpdateSafety.

Section PipelineMore.
Context {W : Type} {collab : Collaborators W} {helpers : Helpers}.

Lemma InitRunContainerSupervisord_loop_cons component container rest err (w : W) :
  InitRunContainerSupervisord_loop component (container :: rest) err w =
  if needsSupervisord component container then
    let '(e1, w1) :=
      ExecuteCommand (ComponentInfo.mk (LiveContainer.ID container))
        supervisordCommand true w in
    let '(e2, w2, t2) := InitRunContainerSupervisord_loop component rest e1 w1 in
    (e2, w2, supervisordInit container :: t2)
  else InitRunContainerSupervisord_loop component rest err w.
Proof.
  simpl. unfold needsSupervisord. case_match; [|done].
  unfold bind, call. fold supervisordCommand.
  by destruct (ExecuteCommand _ _ _ w) as [e1 w1].
Qed.

Lemma InitRunContainerSupervisord_loop_app component cs1 cs2 :
  ∀ err (w : W),
    InitRunContainerSupervisord_loop component (cs1 ++ cs2) err w =
    let '(e1, w1, t1) := InitRunContainerSupervisord_loop component cs1 err w in
    let '(e2, w2, t2) := InitRunContainerSupervisord_loop component cs2 e1 w1 in
    (e2, w2, t1 ++ t2).
Proof.
  induction cs1 as [|c cs1 IH]; intros err w.
  - simpl. unfold ret. by destruct (InitRunContainerSupervisord_loop _ _ _ _) as [[? ?] ?].
  - rewrite <- app_comm_cons, !InitRunContainerSupervisord_loop_cons.
    destruct (needsSupervisord component c); [|apply IH].
    destruct (ExecuteCommand _ _ _ w) as [e1 w1]. rewrite IH.
    destruct (InitRunContainerSupervisord_loop component cs1 e1 w1) as [[e2 w2] t2].
    by destruct (InitRunContainerSupervisord_loop component cs2 e2 w2) as [[e3 w3] t3].
Qed.

Lemma InitRunContainerSupervisord_loop_trace component containers :
  ∀ err (w : W),
    (InitRunContainerSupervisord_loop component containers err w).2
    = map supervisordInit
        (filter (λ c, needsSupervisord component c = true) containers).
Proof.
  induction containers as [|c cs IH]; intros err w; [done|].
  rewrite InitRunContainerSupervisord_loop_cons.
  destruct (needsSupervisord component c) eqn:Hn.
  - rewrite filter_cons_True by done.
    destruct (ExecuteCommand _ _ _ w) as [e1 w1]. specialize (IH e1 w1).
    destruct (InitRunContainerSupervisord_loop component cs e1 w1) as [[e2 w2] t2].
    simpl in *. by rewrite IH.
  - rewrite filter_cons_False by (by rewrite Hn). apply IH.
Qed.

(** X13. [InitRunContainerSupervisord] runs the supervisor command in
    exactly the containers that carry the alias of the component and whose
    command does not contain the path of the supervisor, in the order of the
    list. When there is none, it returns [nil] with no call. *)
Theorem InitRunContainerSupervisord_starts_where_needed
    (a : Adapter.t) (component : string) (containers : list LiveContainer.t) (w : W) :
  (InitRunContainerSupervisord a component containers w).2
  = map supervisordInit (filter (λ c, needsSupervisord component c = true) containers) ∧
  (Forall (λ c, needsSupervisord component c = false) containers →
   InitRunContainerSupervisord a component containers w = (None, w, [])).
Proof.
  split; [apply InitRunContainerSupervisord_loop_trace|].
  unfold InitRunContainerSupervisord. generalize (@None error).
  induction 1 as [|c cs Hc _ IH]; [done|].
  by rewrite InitRunContainerSupervisord_loop_cons, Hc.
Qed.

(** X14. The result of [InitRunContainerSupervisord] is the result of the
    last container in which the supervisor command was run: the loop goes on
    after a failure, and the error of an earlier container is overwritten. *)
Theorem InitRunContainerSupervisord_returns_last_result
    (a : Adapter.t) (component : string) (before after : list LiveContainer.t)
    (container : LiveContainer.t) (w : W) :
  needsSupervisord component container = true →
  Forall (λ c, needsSupervisord component c = false) after →
  InitRunContainerSupervisord a component (before ++ container :: after) w =
  let '(_, w1, t1) := InitRunContainerSupervisord a component before w in
  let '(err, w2) :=
    ExecuteCommand (ComponentInfo.mk (LiveContainer.ID container))
      supervisordCommand true w1 in
  (err, w2, t1 ++ [supervisordInit container]).
Proof.
  intros Hn Hafter. unfold InitRunContainerSupervisord.
  rewrite InitRunContainerSupervisord_loop_app.
  destruct (InitRunContainerSupervisord_loop component before None w) as [[e1 w1] t1].
  rewrite InitRunContainerSupervisord_loop_cons, Hn.
  destruct (ExecuteCommand _ _ _ w1) as [e2 w2].
  assert (Hrest : InitRunContainerSupervisord_loop component after e2 w2 = (e2, w2, [])).
  { clear Hn. revert Hafter. generalize e2.
    induction 1 as [|c cs Hc _ IH]; [done|].
    by rewrite InitRunContainerSupervisord_loop_cons, Hc. }
  by rewrite Hrest.
Qed.

(** X15. [execDevfile] does not require a Run command. With a non-empty map
    that has no Run command it runs at most the Init and the Build command
    (only the Build command when [componentExists] is true), neither the
    supervisor nor a run action; and when there is no command to run at all,
    as with a map that only has a Test command, it returns [nil] with no
    call. *)
Theorem execDevfile_without_run_command
    (a : Adapter.t) (commandsMap : gmap DevfileCommandGroupType DevfileCommand.t)
    (componentExists show : bool) (containers : list LiveContainer.t)
    (w w' : W) (err : option error) (tr : list Event) :
  commandsMap !! RunCommandGroupType = None →
  commandsMap ≠ ∅ →
  execDevfile a commandsMap componentExists show containers w = (err, w', tr) →
  Forall (λ ev, isBuildAction ev = true) tr ∧
  (length tr ≤ 2)%nat ∧
  (componentExists = true → (length tr ≤ 1)%nat) ∧
  (commandsMap !! BuildCommandGroupType = None →
   (componentExists = true ∨ commandsMap !! InitCommandGroupType = None) →
   err = None ∧ w' = w ∧ tr = []).
Proof.
  intros Hrun Hne H. unfold execDevfile in H.
  assert (Hsize : (size commandsMap =? 0)%nat = false).
  { apply Nat.eqb_neq. by rewrite map_size_empty_iff. }
  rewrite Hsize, Hrun in H. unfold bind, ret, call in H.
  destruct componentExists; simpl in H.
  - destruct (commandsMap !! BuildCommandGroupType) as [build|].
    + destruct (ExecuteDevfileBuildAction _ _ _ _ w) as [[e|] w1]; simplify_eq/=;
        (split_and!; [by repeat constructor|lia|intros; lia|done]).
    + simplify_eq/=. split_and!; [constructor|lia|intros; lia|done].
  - destruct (commandsMap !! InitCommandGroupType) as [init|].
    + destruct (ExecuteDevfileBuildAction _ _ _ _ w) as [[e|] w1]; simpl in H.
      * simplify_eq. split_and!; [by repeat constructor|simpl; lia|done|].
        intros _ [|]; done.
      * destruct (commandsMap !! BuildCommandGroupType) as [build|].
        -- destruct (ExecuteDevfileBuildAction _ _ _ _ w1) as [[e|] w2]; simplify_eq/=;
             (split_and!; [by repeat constructor|lia|done|done]).
        -- simplify_eq/=. split_and!; [by repeat constructor|lia|done|].
           intros _ [|]; done.
    + destruct (commandsMap !! BuildCommandGroupType) as [build|].
      * destruct (ExecuteDevfileBuildAction _ _ _ _ w) as [[e|] w1]; simplify_eq/=;
          (split_and!; [by repeat constructor|lia|done|done]).
      * simplify_eq/=. split_and!; [constructor|lia|done|done].
Qed.

End PipelineMore.

Section UpdateCreates.
Context {W : Type} {collab : Collaborators W} {helpers : Helpers}.

(** X16. When the engine lists no container for a component, the iteration
    of [updateComponent] does, after the listing, what the loop of
    [createComponent] does for that component: the same calls, the same
    world, the same error; the flag is [false] in every case. *)
Theorem updateComponent_creates_missing_like_createComponent
    (a : Adapter.t) (vol : string) (componentExists : bool)
    (comp : DevfileComponent.t) (w w1 : W) :
  let listing :=
    EGetContainersByComponentAndAlias (Adapter.ComponentName a) (nameOf comp) [] None in
  GetContainersByComponentAndAlias (Adapter.ComponentName a) (nameOf comp) w
    = (([], None), w1) →
  updateComponent_body a vol componentExists comp w =
  let '(err, w2, ts) := createComponent_loop a vol [comp] w1 in
  (match err with
   | Some _ => Return false err
   | None => Continue false
   end, w2, listing :: ts).
Proof.
  intros listing Hl.
  rewrite createComponent_loop_cons.
  unfold updateComponent_body, bind, ret, call. unfold nameOf in *. rewrite Hl. simpl.
  destruct (pullAndStartContainer _ _ _ _ w1) as [[[e|] w2] ts]; simpl.
  - by rewrite app_nil_r.
  - by rewrite !app_nil_r.
Qed.

End UpdateCreates.


Section UpdateSuccess.
Context {W : Type} {collab : Collaborators W} {helpers : Helpers}.

(** X17. When [updateComponent] returns no error then either the engine
    listed two or more source volumes and nothing else was called (the flag
    is [true]), or the devfile has components, the engine listed one source
    volume, the storage adapter succeeded, and the loop went through every
    declared container, in order, and fell through with the flag that is
    returned. In particular an error of the storage adapter is never turned
    into a success. *)
Theorem updateComponent_success
    (a : Adapter.t) (w w' : W) (flag : bool) (tr : list Event) :
  updateComponent a w = ((flag, None), w', tr) →
  let labels := GetProjectVolumeLabels (Adapter.ComponentName a) in
  let comps := GetSupportedComponents (Adapter.Devfile a) in
  (flag = true ∧ tr = [EGetVolumesByLabel labels] ∧
   ∃ v1 v2 vols, GetVolumesByLabel labels w = ((v1 :: v2 :: vols, None), w')) ∨
  (comps ≠ [] ∧
   ∃ v w1 w2 tl,
     GetVolumesByLabel labels w = (([v], None), w1) ∧
     StorageCreate (Adapter.uniqueStorage a) w1 = (None, w2) ∧
     updateComponent_loop a (Volume.Name v) comps true w2 = (Continue flag, w', tl) ∧
     tr = EGetVolumesByLabel labels :: EStorageCreate (Adapter.uniqueStorage a) :: tl ∧
     listedAliases tl = map nameOf comps).
Proof.
  intros H labels comps.
  unfold updateComponent, updateComponent_projectVolume, bind, ret, call in H.
  fold labels comps in H.
  destruct (GetVolumesByLabel labels w) as [[vols e0] w1] eqn:Hv.
  destruct e0 as [e0|]; [by simplify_eq/=|].
  destruct vols as [|v [|v2 vols]].
  - by simplify_eq/=.
  - destruct (StorageCreate _ w1) as [e1 w2] eqn:Hs.
    destruct (length comps =? 0)%nat eqn:Hlen; [by simplify_eq/=|].
    apply Nat.eqb_neq in Hlen.
    destruct (updateComponent_loop a (Volume.Name v) comps true w2)
      as [[step w3] tl] eqn:Hl.
    pose proof (updateComponent_loop_spec _ _ _ _ _ _ _ _ Hl) as (_ & Hret & _ & Hal & _).
    right. split; [by intros Heq; rewrite Heq in Hlen|].
    destruct step as [f|b e].
    + simplify_eq/=. rewrite app_nil_r.
      exists v, w1, w2, tl. split_and!; [done..|]. by apply (Hal flag).
    + destruct (Hret b e eq_refl) as [e' ->]. by simplify_eq/=.
  - simplify_eq/=. left. split_and!; [done..|]. by eexists _, _, _.
Qed.

End UpdateSuccess.

(** ** The further properties on concrete inputs *)

Section ConcreteMore.
Import Mock Inputs Scenarios.

(** One exposed URL of the declared endpoint and one that is not exposed:
    the only key is the port 8080. *)
Lemma getPortMap_binds_declared_valid_ports_witness :
  getPortMap_loop web [appURL; unexposedURL] ∅ ∅ = (Some appPorts, Some appNames, None) ∧
  ∀ p bindings,
    appPorts !! p = Some bindings →
    validPort p = true ∧ IsPortPresent web p = true ∧ appNames !! p = Some "app".
Proof.
  assert (H : getPortMap_loop web [appURL; unexposedURL] ∅ ∅
              = (Some appPorts, Some appNames, None)) by (vm_compute; reflexivity).
  split; [exact H|].
  destruct (getPortMap_binds_declared_valid_ports web _ _ _ H) as (_ & _ & Hb).
  intros p bindings Hp.
  destruct (Hb p bindings Hp) as (Hv & Hpres & url & Hin & Hport & Hpos & _ & Hname).
  split_and!; [exact Hv|exact Hpres|].
  rewrite Hname. destruct Hin as [<-|[<-|[]]]; [reflexivity|].
  vm_compute in Hpos. discriminate Hpos.
Defined.

(** A URL that is not exposed, a component without endpoint, and an old URL. *)
Lemma generateAndGetHostConfig_without_bound_url_witness :
  generateAndGetHostConfig current web unexposed
  = ((HostConfig.zero, ∅, None), unexposed, []) ∧
  generateAndGetHostConfig current [] exposed = ((HostConfig.zero, ∅, None), exposed, []) ∧
  ∃ e, generateAndGetHostConfig current web outdated
       = ((HostConfig.zero, ∅, Some e), outdated, []).
Proof.
  destruct (generateAndGetHostConfig_without_bound_url current web unexposed "/project"
              [unexposedURL]) as (H1 & _ & _); [vm_compute; reflexivity..|].
  destruct (generateAndGetHostConfig_without_bound_url current [] exposed "/project"
              [appURL]) as (_ & H2 & _); [vm_compute; reflexivity..|].
  destruct (generateAndGetHostConfig_without_bound_url current web outdated "/project"
              [oldURL]) as (_ & _ & H3); [vm_compute; reflexivity..|].
  split_and!.
  - apply H1. repeat constructor.
  - by apply H2.
  - apply H3. apply Exists_cons_hd. intros [Hs _]. vm_compute in Hs. discriminate.
Defined.

(** The container is started with the label of the exposed URL; with the old
    URL nothing is started. *)
Lemma startComponent_checks_before_starting_witness :
  (∃ cfg hc,
     startComponent current [] "v1" (runtime "img:1") exposed
     = (let '(err, w') := StartContainer cfg hc exposed in
        (err, w', [EStartContainer cfg hc])) ∧
     Config.Labels cfg !! "8080" = Some "app") ∧
  startComponent current [] "v1" (runtime "img:1") outdated
  = (Some (errorString "Error creating url: odo url config's port is not present in the devfile. Please re-create odo url with the new devfile port"),
     outdated, []).
Proof.
  split.
  - destruct (startComponent_checks_before_starting current [] "v1" (runtime "img:1")
                exposed (Some appPorts) (Some appNames) None Inputs.runCommand None)
      as (_ & _ & H); [vm_compute; reflexivity..|].
    destruct (H eq_refl eq_refl) as (cfg & hc & Hrun & Hlab).
    exists cfg, hc. split; [exact Hrun|]. apply (Hlab 8080 "app"). reflexivity.
  - destruct (startComponent_checks_before_starting current [] "v1" (runtime "img:1")
                outdated None None
                (Some (errorString "Error creating url: odo url config's port is not present in the devfile. Please re-create odo url with the new devfile port"))
                Inputs.runCommand None)
      as (H & _ & _); [vm_compute; reflexivity..|].
    apply H. by eexists.
Defined.

(** The pull of the image fails: nothing is started. *)
Lemma pullAndStartContainer_pulls_then_starts_witness :
  pullAndStartContainer (collab := Flaky.collaborators ["img:1"] []) current []
    "v1" (runtime "img:1") running
  = (Some (withMessage (errorString "engine failure: img:1") "Unable to pull img:1 image"),
     running, [EPullImage "img:1"]).
Proof.
  destruct (pullAndStartContainer (collab := Flaky.collaborators ["img:1"] []) current []
              "v1" (runtime "img:1") running) as [[err w'] tr] eqn:H.
  destruct (pullAndStartContainer_pulls_then_starts
              (collab := Flaky.collaborators ["img:1"] []) _ _ _ _ _ _ _ _ H)
    as (_ & Hfail & _).
  destruct (Hfail (errorString "engine failure: img:1") running eq_refl) as (-> & -> & ->).
  reflexivity.
Defined.

(** The first push of the component: the volume is created, then the
    storage, then the container. *)
Lemma createComponent_success_witness :
  ∃ w' tr,
    createComponent current fresh = (None, w', tr) ∧
    ∃ starts,
      length starts = 1%nat ∧
      tr = [EGetVolumesByLabel labels; ECreateVolume generated labels]
           ++ EStorageCreate [] :: pulledAndStarted [runtime "img:1"] starts.
Proof.
  destruct (createComponent current fresh) as [[err w'] tr] eqn:H.
  pose proof H as Hc. vm_compute in Hc. injection Hc as <- <- Htr.
  eexists _, tr. split; [reflexivity|].
  destruct (createComponent_success current fresh _ tr H)
    as [(Hone & _)|(_ & tv & starts & Htv & Hlen & Heq)].
  - rewrite Hone in Htr. discriminate Htr.
  - exists starts. split; [exact Hlen|].
    destruct Htv as [->|(name & ->)]; rewrite Heq in Htr.
    + discriminate Htr.
    + injection Htr as <- _. exact Heq.
Defined.


(** A devfile without component: the create path has created the volume,
    the update path has called the storage adapter. *)
Lemma no_component_is_detected_late_witness :
  createComponent noComponent fresh
  = (Some (errorString "No valid components found in the devfile"), created,
     [EGetVolumesByLabel labels; ECreateVolume generated labels]) ∧
  updateComponent noComponent running
  = ((true, Some (errorString "No valid components found in the devfile")), running,
     [EGetVolumesByLabel labels; EStorageCreate []]).
Proof.
  apply (no_component_is_detected_late noComponent fresh fresh fresh created
           running running running generated (Volume.mk generated labels) v1 None);
    vm_compute; reflexivity.
Defined.

(** The old URL is still in the environment file: the running container is
    inspected and left as it is. *)
Lemma updateComponent_keeps_container_without_port_map_witness :
  ∃ e,
    updateComponent_body current "v1" true (runtime "img:1") outdated
    = (Return true
         (Some (withMessage e
                  "unable to get the port map from env.yaml file for component nodejs")),
       outdated,
       [EGetContainersByComponentAndAlias "nodejs" "runtime" listed None;
        EGetContainerConfigHostConfigAndMounts "c0"]).
Proof.
  apply (updateComponent_keeps_container_without_port_map current "v1" true
           (runtime "img:1") outdated outdated outdated (live "c0" "img:1").1
           (live "c0" "img:1").2 HostConfig.zero [] "/project" [oldURL]);
    [vm_compute; reflexivity..|].
  apply Exists_cons_hd. intros [Hs _]. vm_compute in Hs. discriminate.
Defined.

(** Two declared containers, one of them running: both are listed, in the
    order of the devfile. *)
Lemma updateComponent_loop_lists_in_order_witness :
  ∃ w' tr,
    updateComponent_loop twoContainers "v1" [runtime "img:1"; tools] true running
    = (Continue false, w', tr) ∧
    listedAliases tr = ["runtime"; "tools"].
Proof.
  destruct (updateComponent_loop twoContainers "v1" [runtime "img:1"; tools] true running)
    as [[step w'] tr] eqn:H.
  pose proof H as Hc. vm_compute in Hc. injection Hc as <- <- _.
  eexists _, tr. split; [reflexivity|].
  destruct (updateComponent_loop_lists_in_order _ _ _ _ _ _ _ _ H) as (n & _ & Hl & ->).
  exact Hl.
Defined.


(** The supervisor cannot be started in the first container and is started
    in the second; a third one already runs it. The failure is not
    reported. *)
Lemma InitRunContainerSupervisord_returns_last_result_witness :
  InitRunContainerSupervisord (collab := Flaky.collaborators [] ["c0"]) current "runtime"
    [plain "c0"] running
  = (Some (errorString "engine failure: c0"), running, [supervisordInit (plain "c0")]) ∧
  InitRunContainerSupervisord (collab := Flaky.collaborators [] ["c0"]) current "runtime"
    ([plain "c0"] ++ plain "c1" :: [supervised]) running
  = (None, running, [supervisordInit (plain "c0"); supervisordInit (plain "c1")]).
Proof.
  split; [vm_compute; reflexivity|].
  rewrite (InitRunContainerSupervisord_returns_last_result
             (collab := Flaky.collaborators [] ["c0"]) current "runtime"
             [plain "c0"] [supervised] (plain "c1") running).
  - vm_compute. reflexivity.
  - vm_compute. reflexivity.
  - repeat constructor.
Defined.

(** A devfile with a Test command only: the pipeline succeeds and runs
    nothing. *)
Lemma execDevfile_without_run_command_witness :
  execDevfile current testOnly false true listed running = (None, running, []).
Proof.
  destruct (execDevfile current testOnly false true listed running)
    as [[err w'] tr] eqn:H.
  destruct (execDevfile_without_run_command current testOnly false true listed
              running w' err tr) as (_ & _ & _ & Hnone);
    [vm_compute; reflexivity|apply map_non_empty_singleton|exact H|].
  destruct Hnone as (-> & -> & ->); [vm_compute; reflexivity|right; vm_compute; reflexivity|].
  reflexivity.
Defined.

(** The container of the devfile does not run: the update pulls its image
    and starts it, as the first push does. *)
Lemma updateComponent_creates_missing_like_createComponent_witness :
  ∃ w' cfg hc,
    createComponent_loop current "v1" [runtime "img:1"] unexposed
    = (None, w', [EPullImage "img:1"; EStartContainer cfg hc]) ∧
    updateComponent_body current "v1" true (runtime "img:1") unexposed
    = (Continue false, w',
       [EGetContainersByComponentAndAlias "nodejs" "runtime" [] None;
        EPullImage "img:1"; EStartContainer cfg hc]).
Proof.
  pose proof (updateComponent_creates_missing_like_createComponent current "v1" true
                (runtime "img:1") unexposed unexposed eq_refl) as H.
  destruct (createComponent_loop current "v1" [runtime "img:1"] unexposed)
    as [[err w'] tr] eqn:Hc.
  vm_compute in Hc. injection Hc as <- <- <-.
  eexists _, _, _. split; [reflexivity|]. exact H.
Defined.

(** The container runs with the image of the devfile: the update succeeds
    with the flag [true]; the storage adapter was called and succeeded. *)
Lemma updateComponent_success_witness :
  ∃ tl,
    updateComponent current running
    = ((true, None), running,
       EGetVolumesByLabel labels :: EStorageCreate [] :: tl) ∧
    StorageCreate [] running = (None, running) ∧
    listedAliases tl = ["runtime"].
Proof.
  destruct (updateComponent current running) as [[[flag err] w'] tr] eqn:H.
  pose proof H as Hc. vm_compute in Hc. injection Hc as <- <- <- Htr.
  destruct (updateComponent_success current running running true tr H)
    as [(_ & Hone & _)|(_ & v & w1 & w2 & tl & Hv & Hs & _ & Heq & Hal)].
  - rewrite Hone in Htr. discriminate Htr.
  - exists tl. rewrite Heq. split_and!; [reflexivity| |exact Hal].
    vm_compute. reflexivity.
Defined.

End ConcreteMore.
